(** * azure_sql_mcp: the connection broker and the result renderer

    A shallow embedding of [src/azure_sql_mcp/server.py].  Text is modelled
    as [string], one [ascii] per code point (code points 0..255); byte
    strings as [list byte]; [os.environ] and the tool arguments as [gmap];
    the external collaborators (the identity-provider process, the ODBC
    driver) as functions the development is parametric in; the effects of
    a call as the list of events it performs together with its outcome. *)

From Stdlib Require Import ZArith NArith Ascii String List Lia.
From Stdlib Require Import Strings.Byte.
From stdpp Require Import base option list gmap strings pretty.

(** ** Python [str] operations used by the server *)

Module PyStr.

Definition len (s : string) : nat := String.length s.

(** [str.lower] on the code points 0..255: A-Z and the Latin-1 capitals
    (all of 0xC0..0xDE but the multiplication sign 0xD7). *)
Definition lower_char (c : ascii) : ascii :=
  let n := N_of_ascii c in
  if ((65 <=? n) && (n <=? 90) || (192 <=? n) && (n <=? 222) && negb (n =? 215))%N
  then ascii_of_N (n + 32) else c.

Fixpoint lower (s : string) : string :=
  match s with
  | EmptyString => EmptyString
  | String c s' => String (lower_char c) (lower s')
  end.

(** [str.isspace] for one code point below 256. *)
Definition isspace (c : ascii) : bool :=
  let n := N_of_ascii c in
  ((9 <=? n) && (n <=? 13) || (28 <=? n) && (n <=? 32)
   || (n =? 133) || (n =? 160))%N.

Fixpoint lstrip (s : string) : string :=
  match s with
  | EmptyString => EmptyString
  | String c s' => if isspace c then lstrip s' else s
  end.

Fixpoint rev (s : string) : string :=
  match s with
  | EmptyString => EmptyString
  | String c s' => rev s' +:+ String c EmptyString
  end.

Definition rstrip (s : string) : string := rev (lstrip (rev s)).

Definition strip (s : string) : string := rstrip (lstrip s).

Fixpoint spaces (n : nat) : string :=
  match n with
  | O => EmptyString
  | S n' => String " " (spaces n')
  end.

(** [s.ljust(w)]: pad with spaces on the right up to [w]; never truncates. *)
Definition ljust (s : string) (w : nat) : string := s +:+ spaces (w - len s).

(** ["-" * w] and the like. *)
Fixpoint times (c : ascii) (n : nat) : string :=
  match n with
  | O => EmptyString
  | S n' => String c (times c n')
  end.

(** [sep.join(xs)] *)
Fixpoint join (sep : string) (xs : list string) : string :=
  match xs with
  | [] => EmptyString
  | [x] => x
  | x :: rest => x +:+ sep +:+ join sep rest
  end.

Fixpoint startswith (p s : string) : bool :=
  match p, s with
  | EmptyString, _ => true
  | String a p', String b s' => if ascii_dec a b then startswith p' s' else false
  | String _ _, EmptyString => false
  end.

(** [s.replace(old, new)] for a non-empty [old]: the non-overlapping
    occurrences of [old] are replaced from left to right.  [skip] counts
    the characters of the occurrence just matched that are still to be
    dropped. *)
Fixpoint replace_go (old new : string) (skip : nat) (s : string) : string :=
  match s with
  | EmptyString => EmptyString
  | String c s' =>
      match skip with
      | S k => replace_go old new k s'
      | O =>
          if startswith old s
          then new +:+ replace_go old new (len old - 1) s'
          else String c (replace_go old new 0 s')
      end
  end.

Definition replace (s old new : string) : string := replace_go old new 0 s.

(** [s.split(sep, 1)] for a one-character separator: the text before the
    first [sep] and the text after it, or [s] alone when there is none. *)
Fixpoint split1 (sep : ascii) (s : string) : list string :=
  match s with
  | EmptyString => [EmptyString]
  | String c s' =>
      if ascii_dec c sep then [EmptyString; s']
      else match split1 sep s' with
           | [a; b] => [String c a; b]
           | _ => [s]
           end
  end.

(** [old in s] *)
Fixpoint contains (old s : string) : bool :=
  match s with
  | EmptyString => startswith old EmptyString
  | String _ s' => startswith old s || contains old s'
  end.

Fixpoint contains_char (c : ascii) (s : string) : bool :=
  match s with
  | EmptyString => false
  | String d s' => if ascii_dec d c then true else contains_char c s'
  end.

End PyStr.

(** ** Exceptions, outcomes and the event trace *)

Inductive exn : Type :=
  | KeyError (key : string)
  | CalledProcessError (returncode : Z)
  | OSError (msg : string)
  | PyodbcError (msg : string)
  | ValueError (msg : string)
  | IndexError
  | TypeError
  | StructError
  | UnicodeEncodeError.

Inductive outcome (A : Type) : Type :=
  | Returned (a : A)
  | Raised (e : exn).
Arguments Returned {A} a.
Arguments Raised {A} e.

(** A [pyodbc.Connection] handle. *)
Inductive Connection : Type := Conn (id : nat).

(** A connection object is always truthy ([if conn:] tests it against
    [None] only). *)
Definition truthy (conn : option Connection) : bool :=
  match conn with Some _ => true | None => false end.

Definition bytes := list byte.

(** What the server asks of its collaborators, in order. *)
Inductive event : Type :=
  | EvRun (args : list string)
  | EvConnect (conn_str : string) (attrs_before : option (list (Z * bytes)))
  | EvClose (conn : Connection)
  | EvExecute (conn : Connection) (sql : string) (params : list string).

(** A computation: the events it performs and how it ends. *)
Definition M (A : Type) : Type := list event * outcome A.

Definition ret {A} (a : A) : M A := ([], Returned a).
Definition raise {A} (e : exn) : M A := ([], Raised e).
Definition emit (ev : event) : M unit := ([ev], Returned tt).

Definition bind {A B} (m : M A) (k : A → M B) : M B :=
  match m with
  | (evs, Returned a) => let (evs', r) := k a in (evs ++ evs', r)
  | (evs, Raised e) => (evs, Raised e)
  end.

(** Run [m] and hand its outcome over instead of propagating an error. *)
Definition attempt {A} (m : M A) : M (outcome A) := (m.1, Returned m.2).

Definition from_outcome {A} (r : outcome A) : M A := ([], r).

#[global] Instance M_ret : MRet M := @ret.
#[global] Instance M_bind : MBind M := fun A B k m => bind m k.

Definition events {A} (m : M A) : list event := m.1.
Definition result {A} (m : M A) : outcome A := m.2.

(** ** Byte strings: [str.encode("utf-16-le")] and [struct.pack] *)

Definition byte_of_Z (z : Z) : byte :=
  match Byte.of_N (Z.to_N (Z.land z 255)) with
  | Some b => b
  | None => x00
  end.

Definition Z_of_byte (b : byte) : Z := Z.of_N (Byte.to_N b).

Definition ord (c : ascii) : Z := Z.of_N (N_of_ascii c).

(** One code point as UTF-16LE: a single 16-bit unit, low byte first, for
    the basic plane; a surrogate pair above it; a lone surrogate cannot be
    encoded. *)
Definition utf16le_code_point (cp : Z) : outcome bytes :=
  if (cp <? 65536)%Z then
    if ((55296 <=? cp) && (cp <=? 57343))%Z then Raised UnicodeEncodeError
    else Returned [byte_of_Z cp; byte_of_Z (Z.shiftr cp 8)]
  else
    let v := (cp - 65536)%Z in
    let hi := (55296 + Z.shiftr v 10)%Z in
    let lo := (56320 + Z.land v 1023)%Z in
    Returned [byte_of_Z hi; byte_of_Z (Z.shiftr hi 8);
              byte_of_Z lo; byte_of_Z (Z.shiftr lo 8)].

Fixpoint encode_utf16le (s : string) : outcome bytes :=
  match s with
  | EmptyString => Returned []
  | String c s' =>
      match utf16le_code_point (ord c), encode_utf16le s' with
      | Returned b, Returned bs => Returned (b ++ bs)
      | Raised e, _ => Raised e
      | _, Raised e => Raised e
      end
  end.

(** [struct.pack("<I", n)]: four bytes, least significant first; a value
    outside 0..2^32-1 is a [struct.error]. *)
Definition pack_u32_le (n : Z) : outcome bytes :=
  if ((0 <=? n) && (n <? 4294967296))%Z then
    Returned [byte_of_Z n; byte_of_Z (Z.shiftr n 8);
              byte_of_Z (Z.shiftr n 16); byte_of_Z (Z.shiftr n 24)]
  else Raised StructError.

(** The [{k}s] field of [struct.pack]: exactly [k] bytes, the argument cut
    or padded with null bytes. *)
Definition pack_s (k : nat) (bs : bytes) : bytes :=
  take k bs ++ replicate (k - length bs) x00.

(** [struct.pack(f"<I{k}s", n, bs)] *)
Definition pack_I_s (k : nat) (n : Z) (bs : bytes) : outcome bytes :=
  match pack_u32_le n with
  | Returned hd => Returned (hd ++ pack_s k bs)
  | Raised e => Raised e
  end.

(** Readers of the same formats, to state what the blob means. *)
Definition unpack_u32_le (bs : bytes) : option Z :=
  match bs with
  | [b0; b1; b2; b3] =>
      Some (Z_of_byte b0 + 256 * Z_of_byte b1 + 65536 * Z_of_byte b2
            + 16777216 * Z_of_byte b3)%Z
  | _ => None
  end.

Fixpoint utf16le_units (bs : bytes) : option (list Z) :=
  match bs with
  | [] => Some []
  | lo :: hi :: rest =>
      match utf16le_units rest with
      | Some us => Some ((Z_of_byte lo + 256 * Z_of_byte hi)%Z :: us)
      | None => None
      end
  | [_] => None
  end.

Fixpoint code_points (s : string) : list Z :=
  match s with
  | EmptyString => []
  | String c s' => ord c :: code_points s'
  end.

(** ** The driver's view of a statement's result *)

(** A value of a row: [None], an [int], a [str], a [bool], or any other
    driver value (a float, a [Decimal], a date), kept as its [str()]. *)
Inductive value : Type :=
  | VNone
  | VInt (z : Z)
  | VStr (s : string)
  | VBool (b : bool)
  | VOther (text : string).

Record Cursor : Type := mkCursor {
  description : option (list string);
  rows : list (list value);
  rowcount : Z
}.

Record CompletedProcess : Type := mkCompleted {
  returncode : Z;
  stdout : string
}.

(** The ODBC pre-connect attribute that carries an access token
    (SQL_COPT_SS_ACCESS_TOKEN). *)
Definition ACCESS_TOKEN_ATTR : Z := 1256.

Definition az_command : list string :=
  ["az"; "account"; "get-access-token"; "--resource";
   "https://database.windows.net"; "--query"; "accessToken"; "-o"; "tsv"].

(** ** The connection broker *)

Section Broker.

(** The process environment and the three collaborators. *)
Context (environ : gmap string string).
Context (run_process : list string → outcome CompletedProcess).
Context (pyodbc_connect : string → option (list (Z * bytes)) → outcome Connection).
Context (conn_close : Connection → outcome unit).

(** [os.environ[key]] *)
Definition environ_getitem (key : string) : M string :=
  match environ !! key with
  | Some v => mret v
  | None => raise (KeyError key)
  end.

(** [os.environ.get(key, dflt)] *)
Definition environ_get (key dflt : string) : string :=
  default dflt (environ !! key).

(** [subprocess.run(args, capture_output=True, text=True, check=True)] *)
Definition subprocess_run_check (args : list string) : M CompletedProcess :=
  emit (EvRun args);;
  match run_process args with
  | Raised e => raise e
  | Returned cp =>
      if decide (returncode cp = 0%Z) then mret cp
      else raise (CalledProcessError (returncode cp))
  end.

Definition _get_az_token : M string :=
  result ← subprocess_run_check az_command;
  mret (PyStr.strip (stdout result)).

Definition _build_conn_str : M string :=
  server ← environ_getitem "AZURE_SQL_SERVER";
  database ← environ_getitem "AZURE_SQL_DATABASE";
  let trust_cert := PyStr.lower (environ_get "AZURE_SQL_TRUST_CERT" "no") in
  mret ("DRIVER={ODBC Driver 18 for SQL Server};"
        +:+ "SERVER=" +:+ server +:+ ";"
        +:+ "DATABASE=" +:+ database +:+ ";"
        +:+ "Encrypt=yes;"
        +:+ "TrustServerCertificate=" +:+ trust_cert +:+ ";").

(** [pyodbc.connect(conn_str, attrs_before=...)]; [None] when the keyword
    is not passed. *)
Definition connect (conn_str : string) (attrs_before : option (list (Z * bytes)))
  : M Connection :=
  emit (EvConnect conn_str attrs_before);;
  from_outcome (pyodbc_connect conn_str attrs_before).

(** [conn.close()] *)
Definition close (conn : Connection) : M unit :=
  emit (EvClose conn);;
  from_outcome (conn_close conn).

(** The body of the [try] up to the [yield]: it assigns [conn]. *)
Definition open_connection (auth conn_str : string) : M Connection :=
  if decide (auth = "az_cli") then
    token ← _get_az_token;
    token_bytes ← from_outcome (encode_utf16le token);
    token_struct ← from_outcome
      (pack_I_s (length token_bytes) (Z.of_nat (length token_bytes)) token_bytes);
    connect conn_str (Some [(ACCESS_TOKEN_ATTR, token_struct)])
  else
    user ← environ_getitem "AZURE_SQL_USER";
    password ← environ_getitem "AZURE_SQL_PASSWORD";
    connect (conn_str +:+ "UID=" +:+ user +:+ ";PWD=" +:+ password +:+ ";") None.

(** The [finally] clause: [if conn: conn.close()]. *)
Definition finally_clause (conn : option Connection) : M unit :=
  match conn with
  | Some c => if truthy conn then close c else mret tt
  | None => mret tt
  end.

(** Everything [get_connection] does before it yields. *)
Definition acquire : M Connection :=
  let auth := PyStr.lower (environ_get "AZURE_SQL_AUTH" "sql") in
  conn_str ← _build_conn_str;
  open_connection auth conn_str.

(** [with get_connection() as conn: body(conn)].  The generator runs up
    to its [yield]; the caller's block runs; the generator is resumed (or
    the block's error is thrown into it), which runs the [finally]
    clause; an error raised there replaces the outcome of the block. *)
Definition get_connection {A} (body : Connection → M A) : M A :=
  let auth := PyStr.lower (environ_get "AZURE_SQL_AUTH" "sql") in
  conn_str ← _build_conn_str;
  opened ← attempt (open_connection auth conn_str);
  match opened with
  | Raised e => finally_clause None;; raise e
  | Returned conn =>
      r ← attempt (body conn);
      finally_clause (Some conn);;
      from_outcome r
  end.

End Broker.

(** ** The result renderer *)

Definition NL : string := String (ascii_of_nat 10) EmptyString.

(** [str(v)] *)
Definition py_str (v : value) : string :=
  match v with
  | VNone => "None"
  | VInt z => pretty z
  | VStr s => s
  | VBool b => if b then "True" else "False"
  | VOther text => text
  end.

(** [str(v) if v is not None else "NULL"] *)
Definition cell_text (v : value) : string :=
  match v with
  | VNone => "NULL"
  | _ => py_str v
  end.

(** [enumerate(xs)] *)
Definition enumerate {A} (xs : list A) : list (nat * A) := imap pair xs.

(** [max(len(col), max((len(str(row[i])) for row in rows), default=0))];
    [row[i]] beyond the end of a row is an [IndexError] ([None] here). *)
Definition col_width (rows : list (list value)) (i : nat) (col : string)
  : option nat :=
  lens ← mapM (λ row : list value, v ← row !! i; Some (PyStr.len (py_str v))) rows;
  Some (PyStr.len col `max` max_list lens).

Definition col_widths (columns : list string) (rows : list (list value))
  : option (list nat) :=
  mapM (λ ic : nat * string, col_width rows ic.1 ic.2) (enumerate columns).

Definition sep_line (widths : list nat) : string :=
  "+-" +:+ PyStr.join "-+-" (PyStr.times "-" <$> widths) +:+ "-+".

(** One line of the table around its column segments. *)
Definition frame (cells : list string) : string :=
  "| " +:+ PyStr.join " | " cells +:+ " |".

(** [col.ljust(col_widths[i]) for i, col in enumerate(columns)] *)
Definition header_cells (widths : list nat) (columns : list string)
  : option (list string) :=
  mapM (λ ic : nat * string, w ← widths !! ic.1; Some (PyStr.ljust ic.2 w))
       (enumerate columns).

(** The segments of one data line; [col_widths[i]] beyond the last column
    is an [IndexError]. *)
Definition row_cells (widths : list nat) (row : list value)
  : option (list string) :=
  mapM (λ iv : nat * value, w ← widths !! iv.1; Some (PyStr.ljust (cell_text iv.2) w))
       (enumerate row).

Definition footer (n : nat) : string :=
  "(" +:+ pretty n +:+ " row" +:+ (if decide (n ≠ 1) then "s" else "") +:+ ")".

Definition render_lines (columns : list string) (rows : list (list value))
  : option (list string) :=
  widths ← col_widths columns rows;
  let sep := sep_line widths in
  header ← frame <$> header_cells widths columns;
  row_lines ← mapM (λ row, frame <$> row_cells widths row) rows;
  Some ([sep; header; sep] ++ row_lines ++ [sep; footer (length rows)]).

Definition _rows_to_text (cursor : Cursor) : outcome string :=
  match description cursor with
  | None => Raised TypeError
  | Some columns =>
      match rows cursor with
      | [] => Returned "(no rows)"
      | _ :: _ =>
          match render_lines columns (rows cursor) with
          | Some lines => Returned (PyStr.join NL lines)
          | None => Raised IndexError
          end
      end
  end.

(** The width of a whole table line: two frame characters on each side and
    three between neighbouring columns. *)
Definition line_width (widths : list nat) : nat :=
  4 + sum_list widths + 3 * (length widths - 1).

(** The display width of column [i] as the specification words it: the
    larger of the length of the column's name and of the longest rendered
    value the rows hold in that column. *)
Definition column_lens (rows : list (list value)) (i : nat) : list nat :=
  omap (λ row : list value, (λ v, PyStr.len (cell_text v)) <$> row !! i) rows.

Definition column_max_width (rows : list (list value)) (i : nat) (col : string)
  : nat :=
  PyStr.len col `max` max_list (column_lens rows i).

(** ** Resources and tools *)

(** A value of the tool-argument mapping. *)
Inductive arg : Type :=
  | AInt (z : Z)
  | AStr (s : string).

(** How an f-string shows an argument. *)
Definition format_arg (a : arg) : string :=
  match a with
  | AInt z => pretty z
  | AStr s => s
  end.

(** The parsing at the head of [read_resource]. *)
Definition resource_parts (uri : string) : outcome (string * string) :=
  let path := PyStr.replace uri "mssql://" "" in
  let parts := PyStr.split1 "." path in
  if decide (length parts ≠ 2) then
    Raised (ValueError ("Invalid resource URI: " +:+ uri))
  else
    match parts with
    | [schema; table] => Returned (schema, table)
    | _ => Raised (ValueError "unpack")
    end.

Definition select_top (n : string) (schema table : string) : string :=
  "SELECT TOP " +:+ n +:+ " * FROM [" +:+ schema +:+ "].[" +:+ table +:+ "]".

Section Server.

Context (environ : gmap string string).
Context (run_process : list string → outcome CompletedProcess).
Context (pyodbc_connect : string → option (list (Z * bytes)) → outcome Connection).
Context (conn_close : Connection → outcome unit).
Context (cursor_execute : Connection → string → list string → outcome Cursor).
(** Python's [int] on a text argument. *)
Context (int_of_str : string → outcome Z).

Let with_connection {A} : (Connection → M A) → M A :=
  get_connection environ run_process pyodbc_connect conn_close.

(** [cursor = conn.cursor(); cursor.execute(sql, *params)] *)
Definition execute (conn : Connection) (sql : string) (params : list string)
  : M Cursor :=
  emit (EvExecute conn sql params);;
  from_outcome (cursor_execute conn sql params).

Definition read_resource (uri : string) : M string :=
  parts ← from_outcome (resource_parts uri);
  let '(schema, table) := parts in
  with_connection (λ conn,
    cursor ← execute conn (select_top "100" schema table) [];
    from_outcome (_rows_to_text cursor)).

(** [arguments[key]] *)
Definition arguments_getitem (arguments : gmap string arg) (key : string)
  : M arg :=
  match arguments !! key with
  | Some a => mret a
  | None => raise (KeyError key)
  end.

(** [int(x)] *)
Definition py_int (a : arg) : outcome Z :=
  match a with
  | AInt z => Returned z
  | AStr s => int_of_str s
  end.

(** [min(int(arguments.get("rows", 50)), 500)] *)
Definition sample_rows (arguments : gmap string arg) : outcome Z :=
  match py_int (default (AInt 50) (arguments !! "rows")) with
  | Returned v => Returned (v `min` 500)%Z
  | Raised e => Raised e
  end.

(** The [sample_table] branch of [call_tool]. *)
Definition call_tool_sample_table (arguments : gmap string arg)
  : M (list string) :=
  with_connection (λ conn,
    schema ← arguments_getitem arguments "schema";
    table ← arguments_getitem arguments "table";
    n ← from_outcome (sample_rows arguments);
    cursor ← execute conn
      (select_top (pretty n) (format_arg schema) (format_arg table)) [];
    output ← from_outcome (_rows_to_text cursor);
    mret [output]).

End Server.

(** ** Observations on a trace *)

Definition is_close (ev : event) : bool :=
  match ev with EvClose _ => true | _ => false end.

Definition is_connect (ev : event) : bool :=
  match ev with EvConnect _ _ => true | _ => false end.

Definition is_run (ev : event) : bool :=
  match ev with EvRun _ => true | _ => false end.

(** ** Concrete worlds, used to run the definitions *)

Module World.

Definition env_sql : gmap string string :=
  {[ "AZURE_SQL_SERVER" := "srv.database.windows.net";
     "AZURE_SQL_DATABASE" := "shop";
     "AZURE_SQL_USER" := "u";
     "AZURE_SQL_PASSWORD" := "p" ]}.

Definition env_az : gmap string string :=
  {[ "AZURE_SQL_SERVER" := "srv.database.windows.net";
     "AZURE_SQL_DATABASE" := "shop";
     "AZURE_SQL_AUTH" := "AZ_CLI" ]}.

(** Static mode without a password: the connection is never opened. *)
Definition env_no_password : gmap string string :=
  {[ "AZURE_SQL_SERVER" := "srv.database.windows.net";
     "AZURE_SQL_DATABASE" := "shop";
     "AZURE_SQL_USER" := "u" ]}.

Definition base_conn_str : string :=
  "DRIVER={ODBC Driver 18 for SQL Server};SERVER=srv.database.windows.net;DATABASE=shop;Encrypt=yes;TrustServerCertificate=no;".

(** The identity provider exits with [rc] after printing [out]. *)
Definition run_exit (rc : Z) (out : string) (args : list string)
  : outcome CompletedProcess :=
  Returned (mkCompleted rc out).

Definition connect_ok (cs : string) (attrs : option (list (Z * bytes)))
  : outcome Connection :=
  Returned (Conn 1).

Definition close_ok (c : Connection) : outcome unit := Returned tt.

Definition close_fails (c : Connection) : outcome unit :=
  Raised (PyodbcError "close failed").

Definition table1 : Cursor :=
  mkCursor (Some ["x"; "name"])
           [[VInt 1; VStr "ab"]; [VNone; VStr "abcdef"]; [VInt 100; VNone]]
           (-1).

Definition execute_table1 (c : Connection) (sql : string) (ps : list string)
  : outcome Cursor :=
  Returned table1.

Definition args_minus_one : gmap string arg :=
  {[ "schema" := AStr "dbo"; "table" := AStr "t"; "rows" := AInt (-1) ]}.

Definition args_thousand : gmap string arg :=
  {[ "schema" := AStr "dbo"; "table" := AStr "t"; "rows" := AInt 1000 ]}.

Definition int_of_str_fails (s : string) : outcome Z :=
  Raised (ValueError "invalid literal for int()").

(** What the identity provider prints: a token, or a blank line. *)
Definition token_line : string := " eyJ0" +:+ NL.
Definition blank_line : string := " " +:+ NL.

(** A caller's block that returns, and one that raises. *)
Definition body_returns (c : Connection) : M nat := mret 7.
Definition body_raises (c : Connection) : M nat :=
  emit (EvExecute c "SELECT 1/0" []);; raise (PyodbcError "divide by zero").

End World.

(** ** The resource list, the other tools and the tool catalogue *)

(** The statement of [list_resources]. *)
Definition SQL_LIST_RESOURCES : string :=
"
            SELECT TABLE_SCHEMA, TABLE_NAME
            FROM INFORMATION_SCHEMA.TABLES
            WHERE TABLE_TYPE = 'BASE TABLE'
            ORDER BY TABLE_SCHEMA, TABLE_NAME
        ".

(** The statement of the [list_schemas] tool. *)
Definition SQL_LIST_SCHEMAS : string :=
"SELECT SCHEMA_NAME FROM INFORMATION_SCHEMA.SCHEMATA ORDER BY SCHEMA_NAME".

(** The statement of [list_tables] for one schema; the schema is its parameter. *)
Definition SQL_TABLES_OF_SCHEMA : string :=
"
                    SELECT TABLE_SCHEMA, TABLE_NAME
                    FROM INFORMATION_SCHEMA.TABLES
                    WHERE TABLE_TYPE = 'BASE TABLE' AND TABLE_SCHEMA = ?
                    ORDER BY TABLE_NAME
                ".

(** The statement of [list_tables] for all schemas. *)
Definition SQL_ALL_TABLES : string :=
"
                    SELECT TABLE_SCHEMA, TABLE_NAME
                    FROM INFORMATION_SCHEMA.TABLES
                    WHERE TABLE_TYPE = 'BASE TABLE'
                    ORDER BY TABLE_SCHEMA, TABLE_NAME
                ".

(** The statement of [describe_table]; schema and table are its parameters, twice each. *)
Definition SQL_DESCRIBE_TABLE : string :=
"
                SELECT
                    c.COLUMN_NAME,
                    c.DATA_TYPE,
                    COALESCE(CAST(c.CHARACTER_MAXIMUM_LENGTH AS VARCHAR), CAST(c.NUMERIC_PRECISION AS VARCHAR) + ',' + CAST(c.NUMERIC_SCALE AS VARCHAR), '') AS SIZE,
                    c.IS_NULLABLE,
                    CASE WHEN pk.COLUMN_NAME IS NOT NULL THEN 'YES' ELSE 'NO' END AS IS_PK
                FROM INFORMATION_SCHEMA.COLUMNS c
                LEFT JOIN (
                    SELECT ku.COLUMN_NAME
                    FROM INFORMATION_SCHEMA.TABLE_CONSTRAINTS tc
                    JOIN INFORMATION_SCHEMA.KEY_COLUMN_USAGE ku
                        ON tc.CONSTRAINT_NAME = ku.CONSTRAINT_NAME
                        AND tc.TABLE_SCHEMA = ku.TABLE_SCHEMA
                        AND tc.TABLE_NAME = ku.TABLE_NAME
                    WHERE tc.CONSTRAINT_TYPE = 'PRIMARY KEY'
                      AND tc.TABLE_SCHEMA = ?
                      AND tc.TABLE_NAME = ?
                ) pk ON c.COLUMN_NAME = pk.COLUMN_NAME
                WHERE c.TABLE_SCHEMA = ? AND c.TABLE_NAME = ?
                ORDER BY c.ORDINAL_POSITION
            ".

(** An optional result as an outcome: [None] stands for the error [e]. *)
Definition or_raise {A} (e : exn) (o : option A) : outcome A :=
  match o with
  | Some a => Returned a
  | None => Raised e
  end.

(** [cursor.fetchall()]; the driver refuses it after a statement that
    produced no result set. *)
Definition fetchall (cursor : Cursor) : outcome (list (list value)) :=
  match description cursor with
  | Some _ => Returned (rows cursor)
  | None => Raised (PyodbcError "No results.  Previous SQL was not a query.")
  end.

(** [f"{row[0]}.{row[1]}"]; a row with fewer than two values is an
    [IndexError] ([None] here). *)
Definition qualified_name (row : list value) : option string :=
  schema ← row !! 0;
  table ← row !! 1;
  Some (py_str schema +:+ "." +:+ py_str table).

(** A [types.Resource] once it is built: [r_uri] is the text of the URL
    that the resource stores. *)
Record Resource : Type := mkResource {
  r_uri : string;
  r_name : string;
  r_description : string;
  r_mimeType : string
}.

(** The items of a list comprehension, built one after the other; the
    first error ends it. *)
Fixpoint mapM_outcome {A B} (f : A → outcome B) (l : list A) : outcome (list B) :=
  match l with
  | [] => Returned []
  | x :: l' =>
      match f x with
      | Raised e => Raised e
      | Returned y =>
          match mapM_outcome f l' with
          | Raised e => Raised e
          | Returned ys => Returned (y :: ys)
          end
      end
  end.

(** An item of ["\n".join(...)] has to be text. *)
Definition str_item (v : value) : option string :=
  match v with
  | VStr s => Some s
  | _ => None
  end.

(** The truth value of an argument: [if schema:]. *)
Definition arg_truthy (a : arg) : bool :=
  match a with
  | AInt z => bool_decide (z ≠ 0%Z)
  | AStr s => bool_decide (s ≠ "")
  end.

(** [if cursor.description:] *)
Definition description_truthy (cursor : Cursor) : bool :=
  match description cursor with
  | Some (_ :: _) => true
  | _ => false
  end.

Section Tools.

Context (environ : gmap string string).
Context (run_process : list string → outcome CompletedProcess).
Context (pyodbc_connect : string → option (list (Z * bytes)) → outcome Connection).
Context (conn_close : Connection → outcome unit).
Context (cursor_execute : Connection → string → list string → outcome Cursor).
Context (int_of_str : string → outcome Z).
(** The check of the [uri] field when a [types.Resource] is built (the
    protocol library's URL type): the text of the URL it stores, which it
    may have normalised, or the error with which it refuses the text. *)
Context (any_url : string → outcome string).

Let with_connection {A} : (Connection → M A) → M A :=
  get_connection environ run_process pyodbc_connect conn_close.

Let run (conn : Connection) (sql : string) (params : list string) : M Cursor :=
  execute cursor_execute conn sql params.

(** The resource of one row of the table list: the four texts are built
    first, then the resource, whose URL is checked. *)
Definition resource_of_row (row : list value) : outcome Resource :=
  match qualified_name row with
  | None => Raised IndexError
  | Some full =>
      match any_url ("mssql://" +:+ full) with
      | Returned uri =>
          Returned (mkResource uri full ("Table " +:+ full) "text/plain")
      | Raised e => Raised e
      end
  end.

Definition list_resources : M (list Resource) :=
  with_connection (λ conn,
    cursor ← run conn SQL_LIST_RESOURCES [];
    tables ← from_outcome (fetchall cursor);
    from_outcome (mapM_outcome resource_of_row tables)).

(** The [list_schemas] branch of [call_tool]. *)
Definition tool_list_schemas (conn : Connection) : M string :=
  cursor ← run conn SQL_LIST_SCHEMAS [];
  fetched ← from_outcome (fetchall cursor);
  schemas ← from_outcome (or_raise IndexError (mapM (λ row : list value, row !! 0) fetched));
  names ← from_outcome (or_raise TypeError (mapM str_item schemas));
  mret (PyStr.join NL names).

(** The [list_tables] branch; a parameter is recorded as the text of the
    argument. *)
Definition tool_list_tables (conn : Connection) (arguments : gmap string arg)
  : M string :=
  let schema := arguments !! "schema" in
  cursor ← (match schema with
            | Some a =>
                if arg_truthy a
                then run conn SQL_TABLES_OF_SCHEMA [format_arg a]
                else run conn SQL_ALL_TABLES []
            | None => run conn SQL_ALL_TABLES []
            end);
  tables ← from_outcome (fetchall cursor);
  names ← from_outcome (or_raise IndexError (mapM qualified_name tables));
  mret (PyStr.join NL names
        +:+ NL +:+ NL +:+ "(" +:+ pretty (length tables) +:+ " tables)").

(** The [describe_table] branch. *)
Definition tool_describe_table (conn : Connection) (arguments : gmap string arg)
  : M string :=
  schema ← arguments_getitem arguments "schema";
  table ← arguments_getitem arguments "table";
  cursor ← run conn SQL_DESCRIBE_TABLE
             [format_arg schema; format_arg table; format_arg schema; format_arg table];
  from_outcome (_rows_to_text cursor).

(** The [sample_table] branch. *)
Definition tool_sample_table (conn : Connection) (arguments : gmap string arg)
  : M string :=
  schema ← arguments_getitem arguments "schema";
  table ← arguments_getitem arguments "table";
  n ← from_outcome (sample_rows int_of_str arguments);
  cursor ← run conn (select_top (pretty n) (format_arg schema) (format_arg table)) [];
  from_outcome (_rows_to_text cursor).

(** The [execute_query] branch; the driver takes text only as a
    statement. *)
Definition tool_execute_query (conn : Connection) (arguments : gmap string arg)
  : M string :=
  sql ← arguments_getitem arguments "sql";
  match sql with
  | AStr text =>
      cursor ← run conn text [];
      if description_truthy cursor then from_outcome (_rows_to_text cursor)
      else mret (pretty (rowcount cursor) +:+ " row(s) affected")
  | AInt _ => raise TypeError
  end.

(** The [if]/[elif] chain on the tool name, inside the [with] block. *)
Definition call_tool_branch (name : string) (conn : Connection)
    (arguments : gmap string arg) : M string :=
  if decide (name = "list_schemas") then tool_list_schemas conn
  else if decide (name = "list_tables") then tool_list_tables conn arguments
  else if decide (name = "describe_table") then tool_describe_table conn arguments
  else if decide (name = "sample_table") then tool_sample_table conn arguments
  else if decide (name = "execute_query") then tool_execute_query conn arguments
  else raise (ValueError ("Unknown tool: " +:+ name)).

Definition call_tool (name : string) (arguments : gmap string arg)
  : M (list string) :=
  with_connection (λ conn,
    output ← call_tool_branch name conn arguments;
    mret [output]).

End Tools.

(** *** The catalogue of [list_tools] *)

Inductive json_type : Type := JString | JInteger.

Record Tool : Type := mkTool {
  t_name : string;
  t_description : string;
  (** name, type and description of each property of the input schema *)
  t_properties : list (string * json_type * string);
  t_required : list string
}.

Definition list_tools : list Tool :=
  [ mkTool "list_schemas" "List all schemas in the database" [] [];
    mkTool "list_tables" "List all tables, optionally filtered by schema"
      [("schema", JString, "Schema name to filter by (optional)")] [];
    mkTool "describe_table"
      "Get columns, data types, nullability, and primary keys for a table"
      [("schema", JString, "Schema name"); ("table", JString, "Table name")]
      ["schema"; "table"];
    mkTool "sample_table" "Get the first N rows from a table (default 50, max 500)"
      [("schema", JString, "Schema name"); ("table", JString, "Table name");
       ("rows", JInteger, "Number of rows to return (default 50, max 500)")]
      ["schema"; "table"];
    mkTool "execute_query" "Execute a SQL query against the database"
      [("sql", JString, "SQL query to execute")] ["sql"] ].

(** What an input schema of the catalogue asks of a call: the required
    keys are there, and a key the schema describes holds a value of the
    type it names. *)
Definition has_type (t : json_type) (a : arg) : bool :=
  match t, a with
  | JString, AStr _ => true
  | JInteger, AInt _ => true
  | _, _ => false
  end.

Definition validates (tool : Tool) (arguments : gmap string arg) : bool :=
  forallb (λ key, bool_decide (is_Some (arguments !! key))) (t_required tool)
  && forallb (λ p : string * json_type * string,
                match arguments !! p.1.1 with
                | Some a => has_type p.1.2 a
                | None => true
                end) (t_properties tool).

(** How many statements a trace sends to the database. *)
Definition is_execute (ev : event) : bool :=
  match ev with EvExecute _ _ _ => true | _ => false end.

(** ** The setup script: the settings it asks for *)

Module Setup.

(** [auth in ("sql", "az_cli")] *)
Definition accepted (auth : string) : bool :=
  bool_decide (auth = "sql") || bool_decide (auth = "az_cli").

(** [input(prompt)] on the lines still to be read; at the end of the
    input it is an [EOFError] ([None] here). *)
Definition input (lines : list string) : option (string * list string) :=
  match lines with
  | [] => None
  | line :: rest => Some (line, rest)
  end.

(** The loop [while auth not in ("sql", "az_cli"): auth = input(...)]
    started from the empty text. *)
Fixpoint ask_auth (lines : list string) : option (string * list string) :=
  match lines with
  | [] => None
  | line :: rest =>
      let auth := PyStr.lower (PyStr.strip line) in
      if accepted auth then Some (auth, rest) else ask_auth rest
  end.

(** The [env] mapping that [main] builds from what is typed, and the
    lines it leaves unread. *)
Definition main_env (lines : list string)
  : option (gmap string string * list string) :=
  '(auth, lines) ← ask_auth lines;
  '(server, lines) ← input lines;
  '(database, lines) ← input lines;
  let env : gmap string string :=
    {[ "AZURE_SQL_AUTH" := auth;
       "AZURE_SQL_SERVER" := PyStr.strip server;
       "AZURE_SQL_DATABASE" := PyStr.strip database ]} in
  if decide (auth = "sql") then
    '(user, lines) ← input lines;
    '(password, lines) ← input lines;
    Some (<["AZURE_SQL_PASSWORD" := PyStr.strip password]>
            (<["AZURE_SQL_USER" := PyStr.strip user]> env), lines)
  else Some (env, lines).

End Setup.

(** ** The delegated path on text of any code points

    The strings above hold code points below 256.  What the identity
    provider prints is Python text of any code points; the token path of
    [get_connection] is modelled once more on such text, a list of code
    points, with the same steps. *)

(** [str.isspace] for one code point. *)
Definition isspace_point (cp : Z) : bool :=
  ((9 <=? cp) && (cp <=? 13) || (28 <=? cp) && (cp <=? 32)
   || (cp =? 133) || (cp =? 160) || (cp =? 5760)
   || (8192 <=? cp) && (cp <=? 8202) || (cp =? 8232) || (cp =? 8233)
   || (cp =? 8239) || (cp =? 8287) || (cp =? 12288))%Z.

Fixpoint lstrip_points (t : list Z) : list Z :=
  match t with
  | [] => []
  | cp :: t' => if isspace_point cp then lstrip_points t' else t
  end.

Definition rstrip_points (t : list Z) : list Z := rev (lstrip_points (rev t)).

(** [str.strip] *)
Definition strip_points (t : list Z) : list Z := rstrip_points (lstrip_points t).

(** [str.encode("utf-16-le")] *)
Fixpoint encode_utf16le_points (t : list Z) : outcome bytes :=
  match t with
  | [] => Returned []
  | cp :: t' =>
      match utf16le_code_point cp, encode_utf16le_points t' with
      | Returned b, Returned bs => Returned (b ++ bs)
      | Raised e, _ => Raised e
      | _, Raised e => Raised e
      end
  end.

(** A code point that text decoded from a process can hold: in the
    Unicode range and no surrogate. *)
Definition is_scalar (cp : Z) : bool :=
  ((0 <=? cp) && (cp <=? 1114111)
   && negb ((55296 <=? cp) && (cp <=? 57343)))%Z.

(** The number of bytes of the UTF-16LE form. *)
Definition utf16le_size (t : list Z) : nat :=
  sum_list ((λ cp, if (cp <? 65536)%Z then 2 else 4) <$> t).

(** The reader of UTF-16: 16-bit units back to code points, a high
    surrogate taken together with the low surrogate after it. *)
Fixpoint utf16_points (units : list Z) : option (list Z) :=
  match units with
  | [] => Some []
  | u :: rest =>
      if ((55296 <=? u) && (u <=? 56319))%Z then
        match rest with
        | lo :: rest' =>
            if ((56320 <=? lo) && (lo <=? 57343))%Z then
              match utf16_points rest' with
              | Some cps =>
                  Some ((65536 + (u - 55296) * 1024 + (lo - 56320))%Z :: cps)
              | None => None
              end
            else None
        | [] => None
        end
      else if ((56320 <=? u) && (u <=? 57343))%Z then None
      else match utf16_points rest with
           | Some cps => Some (u :: cps)
           | None => None
           end
  end.

Definition decode_utf16le (bs : bytes) : option (list Z) :=
  match utf16le_units bs with
  | Some units => utf16_points units
  | None => None
  end.

(** A finished process whose output is text of any code points. *)
Record CompletedText : Type := mkCompletedText {
  text_returncode : Z;
  text_stdout : list Z
}.

(** The same process seen through the narrower strings. *)
Definition widen (cp : CompletedProcess) : CompletedText :=
  mkCompletedText (returncode cp) (code_points (stdout cp)).

Definition widen_outcome (r : outcome CompletedProcess) : outcome CompletedText :=
  match r with
  | Returned cp => Returned (widen cp)
  | Raised e => Raised e
  end.

Section BrokerWide.

Context (environ : gmap string string).
Context (run_text : list string → outcome CompletedText).
Context (pyodbc_connect : string → option (list (Z * bytes)) → outcome Connection).
Context (conn_close : Connection → outcome unit).

(** [subprocess.run(args, capture_output=True, text=True, check=True)] *)
Definition subprocess_run_check_wide (args : list string) : M CompletedText :=
  emit (EvRun args);;
  match run_text args with
  | Raised e => raise e
  | Returned cp =>
      if decide (text_returncode cp = 0%Z) then mret cp
      else raise (CalledProcessError (text_returncode cp))
  end.

Definition _get_az_token_wide : M (list Z) :=
  result ← subprocess_run_check_wide az_command;
  mret (strip_points (text_stdout result)).

(** The body of the [try] up to the [yield]. *)
Definition open_connection_wide (auth conn_str : string) : M Connection :=
  if decide (auth = "az_cli") then
    token ← _get_az_token_wide;
    token_bytes ← from_outcome (encode_utf16le_points token);
    token_struct ← from_outcome
      (pack_I_s (length token_bytes) (Z.of_nat (length token_bytes)) token_bytes);
    connect pyodbc_connect conn_str (Some [(ACCESS_TOKEN_ATTR, token_struct)])
  else
    user ← environ_getitem environ "AZURE_SQL_USER";
    password ← environ_getitem environ "AZURE_SQL_PASSWORD";
    connect pyodbc_connect
      (conn_str +:+ "UID=" +:+ user +:+ ";PWD=" +:+ password +:+ ";") None.

(** [with get_connection() as conn: body(conn)] *)
Definition get_connection_wide {A} (body : Connection → M A) : M A :=
  let auth := PyStr.lower (environ_get environ "AZURE_SQL_AUTH" "sql") in
  conn_str ← _build_conn_str environ;
  opened ← attempt (open_connection_wide auth conn_str);
  match opened with
  | Raised e => finally_clause conn_close None;; raise e
  | Returned conn =>
      r ← attempt (body conn);
      finally_clause conn_close (Some conn);;
      from_outcome r
  end.

End BrokerWide.

(** ** More concrete data *)

Module Scenario.

Definition tables : Cursor :=
  mkCursor (Some ["TABLE_SCHEMA"; "TABLE_NAME"])
           [[VStr "dbo"; VStr "Customers"]; [VStr "sales"; VStr "Orders"]] (-1).

Definition execute_tables (c : Connection) (sql : string) (ps : list string)
  : outcome Cursor :=
  Returned tables.

(** A URL check that refuses text with a blank and stores other text as
    it is. *)
Definition url_check (text : string) : outcome string :=
  if PyStr.contains_char " " text
  then Raised (ValueError "Input should be a valid URL, invalid domain character")
  else Returned text.

Definition spaced : Cursor :=
  mkCursor (Some ["TABLE_SCHEMA"; "TABLE_NAME"])
           [[VStr "dbo"; VStr "Customers"]; [VStr "dbo"; VStr "Order Details"]] (-1).

Definition execute_spaced (c : Connection) (sql : string) (ps : list string)
  : outcome Cursor :=
  Returned spaced.

(** An [UPDATE] that changed three rows. *)
Definition updated : Cursor := mkCursor None [] 3.

Definition execute_update (c : Connection) (sql : string) (ps : list string)
  : outcome Cursor :=
  Returned updated.

Definition ragged : Cursor :=
  mkCursor (Some ["a"; "b"]) [[VInt 1; VInt 2]; [VInt 3]] (-1).

Definition typed : list string := ["maybe"; " SQL "; " srv "; "shop"; "u"; "p"; "extra"].

Definition args_update : gmap string arg :=
  {[ "sql" := AStr "UPDATE t SET x = 1" ]}.

Definition args_describe : gmap string arg :=
  {[ "schema" := AStr "dbo"; "table" := AStr "Customers" ]}.

Definition args_no_table : gmap string arg := {[ "schema" := AStr "dbo" ]}.

Definition args_empty_schema : gmap string arg := {[ "schema" := AStr "" ]}.

Definition tool_describe : Tool :=
  mkTool "describe_table"
    "Get columns, data types, nullability, and primary keys for a table"
    [("schema", JString, "Schema name"); ("table", JString, "Table name")]
    ["schema"; "table"].

(** What the provider prints when the token holds the code point
    U+1F600 after a letter. *)
Definition wide_line : list Z := [32; 101; 128512; 10]%Z.

Definition run_text_exit (rc : Z) (out : list Z) (args : list string)
  : outcome CompletedText :=
  Returned (mkCompletedText rc out).

(** Environments that lack a setting. *)
Definition env_no_database : gmap string string :=
  {[ "AZURE_SQL_SERVER" := "srv.database.windows.net" ]}.

Definition env_no_user : gmap string string :=
  {[ "AZURE_SQL_SERVER" := "srv.database.windows.net";
     "AZURE_SQL_DATABASE" := "shop";
     "AZURE_SQL_PASSWORD" := "p" ]}.

End Scenario.

(** ** Further observations *)

(** A table in which each missing value is replaced by the text [NULL]. *)
Definition null_as_text (v : value) : value :=
  match v with
  | VNone => VStr "NULL"
  | _ => v
  end.

(** * Properties *)

(** ** The monad *)

Lemma bind_unfold {A B} (m : M A) (k : A → M B) :
  m ≫= k = match m with
           | (evs, Returned a) => (evs ++ (k a).1, (k a).2)
           | (evs, Raised e) => (evs, Raised e)
           end.
Proof.
  unfold mbind, M_bind, bind. destruct m as [evs [a|e]]; [|done].
  by destruct (k a).
Qed.

Lemma events_bind_Forall {A B} (P : event → Prop) (m : M A) (k : A → M B) :
  Forall P (events m) → (∀ a, Forall P (events (k a))) →
  Forall P (events (m ≫= k)).
Proof.
  rewrite bind_unfold. destruct m as [evs [a|e]]; simpl; [|done].
  intros Hm Hk. apply Forall_app. split; [done|apply Hk].
Qed.

(** Walk through a computation, one bind or branch at a time. *)
Ltac events_Forall :=
  repeat match goal with
    | |- Forall _ (events (_ ≫= _)) => apply events_bind_Forall; [|intros ?]
    | |- Forall _ (events (match ?x with _ => _ end)) => destruct x
    | |- Forall _ (events (if ?x then _ else _)) => destruct x
    end;
  try (by repeat constructor).

Lemma M_eta {A} (m : M A) : m = (events m, result m).
Proof. by destruct m. Qed.

Lemma bind_ret_l {A B} (a : A) (k : A → M B) : (mret a : M A) ≫= k = k a.
Proof. rewrite bind_unfold. simpl. by destruct (k a). Qed.

(** ** Byte strings *)

Lemma Z_of_byte_of_Z (z : Z) : Z_of_byte (byte_of_Z z) = (z `mod` 256)%Z.
Proof.
  unfold Z_of_byte, byte_of_Z.
  assert (Hland : Z.land z 255 = (z `mod` 256)%Z).
  { change 255%Z with (Z.ones 8). by rewrite Z.land_ones. }
  rewrite Hland.
  assert (0 ≤ z `mod` 256 < 256)%Z by (apply Z.mod_pos_bound; lia).
  destruct (Byte.of_N (Z.to_N (z `mod` 256))) as [b|] eqn:E.
  - apply Byte.to_of_N in E. rewrite E. lia.
  - apply Byte.of_N_None_iff in E. lia.
Qed.

Lemma pack_u32_le_spec (n : Z) :
  (0 ≤ n < 4294967296)%Z →
  ∃ hd, pack_u32_le n = Returned hd ∧ length hd = 4
        ∧ unpack_u32_le hd = Some n.
Proof.
  intros Hn. unfold pack_u32_le.
  assert (((0 <=? n) && (n <? 4294967296))%Z = true) as -> by lia.
  eexists. split; [done|]. split; [done|].
  unfold unpack_u32_le. rewrite !Z_of_byte_of_Z, !Z.shiftr_div_pow2 by lia.
  f_equal. change (2 ^ 8)%Z with 256%Z. change (2 ^ 16)%Z with 65536%Z.
  change (2 ^ 24)%Z with 16777216%Z.
  Z.div_mod_to_equations. lia.
Qed.

Lemma pack_u32_le_out_of_range (n : Z) :
  (n < 0 ∨ 4294967296 ≤ n)%Z → pack_u32_le n = Raised StructError.
Proof.
  intros Hn. unfold pack_u32_le.
  by assert (((0 <=? n) && (n <? 4294967296))%Z = false) as -> by lia.
Qed.

Lemma pack_s_exact (bs : bytes) : pack_s (length bs) bs = bs.
Proof.
  unfold pack_s. rewrite firstn_all, Nat.sub_diag. simpl. apply app_nil_r.
Qed.

Lemma utf16le_code_point_char (c : ascii) :
  ∃ lo, utf16le_code_point (ord c) = Returned [lo; x00]
        ∧ Z_of_byte lo = ord c.
Proof.
  destruct c as [[] [] [] [] [] [] [] []]; eexists; split; reflexivity.
Qed.

(** Text of code points below 256 always encodes: two bytes per character,
    the code point in the low byte. *)
Lemma encode_utf16le_spec (s : string) :
  ∃ bs, encode_utf16le s = Returned bs
        ∧ length bs = 2 * PyStr.len s
        ∧ utf16le_units bs = Some (code_points s).
Proof.
  induction s as [|c s (bs & Hbs & Hlen & Hunits)]; simpl.
  - by exists [].
  - destruct (utf16le_code_point_char c) as (lo & -> & Hlo).
    rewrite Hbs. exists ([lo; x00] ++ bs). split; [done|]. split.
    + simpl. unfold PyStr.len in *. simpl. lia.
    + simpl. rewrite Hunits. do 2 f_equal. rewrite Hlo.
      change (Z_of_byte x00) with 0%Z. lia.
Qed.

(** ** Scoped acquisition *)

Section BrokerFacts.

Context (environ : gmap string string).
Context (run_process : list string → outcome CompletedProcess).
Context (pyodbc_connect : string → option (list (Z * bytes)) → outcome Connection).
Context (conn_close : Connection → outcome unit).

Abbreviation acquire' := (acquire environ run_process pyodbc_connect).
Abbreviation get_connection' := (get_connection environ run_process pyodbc_connect conn_close).

(** [get_connection'] is [acquire'], then the block, then the close. *)
Lemma get_connection_spec {A} (body : Connection → M A) :
  get_connection' body =
    match acquire' with
    | (pre, Returned c) =>
        (pre ++ events (body c) ++ [EvClose c],
         match conn_close c with
         | Returned _ => result (body c)
         | Raised e => Raised e
         end)
    | (pre, Raised e) => (pre, Raised e)
    end.
Proof.
  unfold get_connection, acquire.
  rewrite !bind_unfold.
  destruct (_build_conn_str environ) as [evs [cs|e]]; [|done].
  rewrite !bind_unfold. unfold attempt. simpl.
  destruct (open_connection _ _ _ _ _) as [evs' [c|e]]; simpl.
  - unfold events, result. rewrite <- app_assoc.
    by destruct (conn_close c) as [[]|e].
  - by rewrite app_nil_r.
Qed.


Lemma build_conn_str_events : events (_build_conn_str environ) = [].
Proof.
  unfold _build_conn_str, environ_getitem.
  destruct (environ !! "AZURE_SQL_SERVER"); [|done].
  destruct (environ !! "AZURE_SQL_DATABASE"); done.
Qed.

Lemma build_conn_str_returned cs :
  result (_build_conn_str environ) = Returned cs →
  _build_conn_str environ = ([], Returned cs).
Proof.
  intros H. rewrite (M_eta (_build_conn_str environ)).
  by rewrite build_conn_str_events, H.
Qed.

Lemma acquire_build_failed e :
  result (_build_conn_str environ) = Raised e → acquire' = ([], Raised e).
Proof.
  intros H. unfold acquire. rewrite bind_unfold.
  rewrite (M_eta (_build_conn_str environ)), build_conn_str_events, H. done.
Qed.

Lemma acquire_built cs :
  result (_build_conn_str environ) = Returned cs →
  acquire' = open_connection environ run_process pyodbc_connect
              (PyStr.lower (environ_get environ "AZURE_SQL_AUTH" "sql")) cs.
Proof.
  intros H. unfold acquire. rewrite bind_unfold.
  rewrite (build_conn_str_returned _ H). simpl. by destruct (open_connection _ _ _ _ _).
Qed.

(** Acquisition runs the identity provider and the driver's connect,
    and never a close. *)
Lemma acquire_never_closes : Forall (λ ev, is_close ev = false) (events acquire').
Proof.
  destruct (result (_build_conn_str environ)) as [cs|e] eqn:Hb.
  - rewrite (acquire_built _ Hb).
    unfold open_connection, _get_az_token, subprocess_run_check, connect,
      environ_getitem.
    events_Forall.
  - rewrite (acquire_build_failed _ Hb). constructor.
Qed.


Lemma get_az_token_spec :
  _get_az_token run_process =
    ([EvRun az_command],
     match run_process az_command with
     | Raised e => Raised e
     | Returned cp =>
         if decide (returncode cp = 0%Z) then Returned (PyStr.strip (stdout cp))
         else Raised (CalledProcessError (returncode cp))
     end).
Proof.
  unfold _get_az_token, subprocess_run_check. rewrite !bind_unfold. simpl.
  destruct (run_process az_command) as [cp|e]; [|done].
  by destruct (decide (returncode cp = 0%Z)).
Qed.

Lemma build_conn_str_value server database :
  environ !! "AZURE_SQL_SERVER" = Some server →
  environ !! "AZURE_SQL_DATABASE" = Some database →
  _build_conn_str environ =
    ([], Returned ("DRIVER={ODBC Driver 18 for SQL Server};"
                   +:+ "SERVER=" +:+ server +:+ ";"
                   +:+ "DATABASE=" +:+ database +:+ ";"
                   +:+ "Encrypt=yes;"
                   +:+ "TrustServerCertificate="
                   +:+ PyStr.lower (environ_get environ "AZURE_SQL_TRUST_CERT" "no")
                   +:+ ";")).
Proof.
  intros Hs Hd. unfold _build_conn_str, environ_getitem. by rewrite Hs, Hd.
Qed.

(** Acquisition returns a connection exactly when its last step asked the
    driver to connect and the driver returned that connection. *)
Lemma acquire_returned_iff c :
  result acquire' = Returned c
  ↔ ∃ cs attrs, last (events acquire') = Some (EvConnect cs attrs)
                ∧ pyodbc_connect cs attrs = Returned c.
Proof.
  destruct (result (_build_conn_str environ)) as [cs|e] eqn:Hb.
  2:{ rewrite (acquire_build_failed _ Hb). simpl.
      split; [done|]. by intros (? & ? & ? & _). }
  rewrite (acquire_built _ Hb). unfold open_connection.
  destruct (decide _) as [_|_].
  - rewrite bind_unfold, get_az_token_spec.
    destruct (run_process az_command) as [cp|e1];
      [|split; [done|by intros (? & ? & ? & _)]].
    destruct (decide (returncode cp = 0%Z)) as [_|_];
      [|split; [done|by intros (? & ? & ? & _)]].
    simpl. destruct (encode_utf16le _) as [bs|e2]; simpl;
      [|split; [done|by intros (? & ? & ? & _)]].
    destruct (pack_I_s _ _ _) as [blob|e3]; simpl;
      [|split; [done|by intros (? & ? & ? & _)]].
    split; [by eauto|]. by intros (? & ? & [= <- <-] & ?).
  - unfold environ_getitem.
    destruct (environ !! "AZURE_SQL_USER") as [user|];
      [|split; [done|by intros (? & ? & ? & _)]].
    destruct (environ !! "AZURE_SQL_PASSWORD") as [password|];
      [|split; [done|by intros (? & ? & ? & _)]].
    simpl. split; [by eauto|]. by intros (? & ? & [= <- <-] & ?).
Qed.

(** When the close returns, the block's own outcome is the outcome of
    the whole [with] statement. *)
Lemma close_returned_keeps_outcome {A} (body : Connection → M A) c :
  result acquire' = Returned c → conn_close c = Returned tt →
  result (get_connection' body) = result (body c).
Proof.
  intros Hc Hclose. rewrite get_connection_spec.
  destruct acquire' as [pre [c'|e]]; simpl in *; [|done].
  injection Hc as ->. by rewrite Hclose.
Qed.

(** C1.  A connection that was opened is closed when the caller's block
    ends, however it ends: the trace of the whole [with] statement is
    the acquisition, the block's own events, and the close, in this
    order.  When acquisition fails, its error is the outcome and the
    trace is that of the acquisition, which never holds a close. *)
Theorem get_connection_closes_on_every_exit {A} (body : Connection → M A) :
  (∀ c, result acquire' = Returned c →
        events (get_connection' body)
        = events acquire' ++ events (body c) ++ [EvClose c])
  ∧ (∀ e, result acquire' = Raised e →
          get_connection' body = (events acquire', Raised e))
  ∧ Forall (λ ev, is_close ev = false) (events acquire').
Proof.
  rewrite get_connection_spec. split; [|split].
  - intros c Hc. destruct acquire' as [pre [c'|e]]; simpl in *; [|done].
    by injection Hc as ->.
  - intros e He. destruct acquire' as [pre [c'|e']]; simpl in *; [done|].
    by injection He as ->.
  - apply acquire_never_closes.
Qed.

(** C2, as the code has it.  An error raised by the close is the outcome
    of the whole [with] statement, whether the caller's block returned or
    raised. *)
Theorem close_error_propagates {A} (body : Connection → M A) c e :
  result acquire' = Returned c → conn_close c = Raised e →
  result (get_connection' body) = Raised e.
Proof.
  intros Hc Hclose. rewrite get_connection_spec.
  destruct acquire' as [pre [c'|e']]; simpl in *; [|done].
  injection Hc as ->. by rewrite Hclose.
Qed.

(** C3, as the code has it.  In delegated-identity mode a non-zero exit
    of the identity provider is the error of the whole [with] statement
    and nothing but the provider was run; a zero exit with blank output
    is no error: the driver is asked to connect with a token blob of
    length zero. *)
Theorem az_cli_provider_outcomes cs cp :
  PyStr.lower (environ_get environ "AZURE_SQL_AUTH" "sql") = "az_cli" →
  result (_build_conn_str environ) = Returned cs →
  run_process az_command = Returned cp →
  (returncode cp ≠ 0%Z →
     ∀ A (body : Connection → M A),
       get_connection' body
       = ([EvRun az_command], Raised (CalledProcessError (returncode cp)))
       ∧ Forall (λ ev, is_connect ev = false) (events (get_connection' body)))
  ∧ (returncode cp = 0%Z → PyStr.strip (stdout cp) = "" →
     acquire'
     = ([EvRun az_command;
         EvConnect cs (Some [(ACCESS_TOKEN_ATTR, [x00; x00; x00; x00])])],
        pyodbc_connect cs (Some [(ACCESS_TOKEN_ATTR, [x00; x00; x00; x00])]))).
Proof.
  intros Hauth Hcs Hrun.
  assert (Hacq := acquire_built _ Hcs). rewrite Hauth in Hacq.
  unfold open_connection in Hacq. simpl in Hacq.
  rewrite bind_unfold, get_az_token_spec, Hrun in Hacq.
  split.
  - intros Hrc A body. rewrite get_connection_spec, Hacq.
    destruct (decide (returncode cp = 0%Z)); [done|].
    split; [done|]. by repeat constructor.
  - intros Hrc Hout. rewrite Hacq.
    destruct (decide (returncode cp = 0%Z)); [|done].
    rewrite Hout. reflexivity.
Qed.

Lemma acquire_static cs user password :
  PyStr.lower (environ_get environ "AZURE_SQL_AUTH" "sql") ≠ "az_cli" →
  result (_build_conn_str environ) = Returned cs →
  environ !! "AZURE_SQL_USER" = Some user →
  environ !! "AZURE_SQL_PASSWORD" = Some password →
  acquire'
  = ([EvConnect (cs +:+ "UID=" +:+ user +:+ ";PWD=" +:+ password +:+ ";") None],
     pyodbc_connect (cs +:+ "UID=" +:+ user +:+ ";PWD=" +:+ password +:+ ";") None).
Proof.
  intros Hauth Hcs Hu Hp.
  rewrite (acquire_built _ Hcs). unfold open_connection, environ_getitem.
  destruct (decide _) as [|_]; [done|].
  rewrite Hu, Hp. unfold connect. rewrite !bind_unfold. simpl.
  by destruct (pyodbc_connect _ _).
Qed.

(** C8.  In static-credential mode [get_connection] asks the driver to
    connect, first of all and once, with the base string followed by
    [UID=<user>;PWD=<password>;] and without pre-connect attributes; then
    come the caller's block and the close, or, when the driver refuses,
    nothing.  The identity provider is not run before the block. *)
Theorem static_credentials_connect cs user password :
  PyStr.lower (environ_get environ "AZURE_SQL_AUTH" "sql") ≠ "az_cli" →
  result (_build_conn_str environ) = Returned cs →
  environ !! "AZURE_SQL_USER" = Some user →
  environ !! "AZURE_SQL_PASSWORD" = Some password →
  let conn_str := cs +:+ "UID=" +:+ user +:+ ";PWD=" +:+ password +:+ ";" in
  acquire' = ([EvConnect conn_str None], pyodbc_connect conn_str None)
  ∧ Forall (λ ev, is_run ev = false) (events acquire')
  ∧ ∀ A (body : Connection → M A),
      get_connection' body
      = match pyodbc_connect conn_str None with
        | Returned c =>
            ([EvConnect conn_str None] ++ events (body c) ++ [EvClose c],
             match conn_close c with
             | Returned _ => result (body c)
             | Raised e => Raised e
             end)
        | Raised e => ([EvConnect conn_str None], Raised e)
        end.
Proof.
  intros Hauth Hcs Hu Hp conn_str.
  pose proof (acquire_static _ _ _ Hauth Hcs Hu Hp) as Hacq. fold conn_str in Hacq.
  split; [done|]. split; [rewrite Hacq; by repeat constructor|].
  intros A body. rewrite get_connection_spec, Hacq.
  by destruct (pyodbc_connect conn_str None).
Qed.

Lemma acquire_az_cli cs cp :
  PyStr.lower (environ_get environ "AZURE_SQL_AUTH" "sql") = "az_cli" →
  result (_build_conn_str environ) = Returned cs →
  run_process az_command = Returned cp →
  returncode cp = 0%Z →
  let token := PyStr.strip (stdout cp) in
  (2 * Z.of_nat (PyStr.len token) < 4294967296)%Z →
  ∃ prefix token_bytes,
    encode_utf16le token = Returned token_bytes
    ∧ utf16le_units token_bytes = Some (code_points token)
    ∧ length token_bytes = 2 * PyStr.len token
    ∧ length prefix = 4
    ∧ unpack_u32_le prefix = Some (Z.of_nat (length token_bytes))
    ∧ acquire'
      = ([EvRun az_command;
          EvConnect cs (Some [(ACCESS_TOKEN_ATTR, prefix ++ token_bytes)])],
         pyodbc_connect cs (Some [(ACCESS_TOKEN_ATTR, prefix ++ token_bytes)])).
Proof.
  intros Hauth Hcs Hrun Hrc token Hlen.
  destruct (encode_utf16le_spec token) as (bs & Hbs & Hbslen & Hunits).
  destruct (pack_u32_le_spec (Z.of_nat (length bs)))
    as (hd & Hhd & Hhdlen & Hunpack); [lia|].
  exists hd, bs. repeat (split; [done|]).
  rewrite (acquire_built _ Hcs), Hauth. unfold open_connection. simpl.
  rewrite bind_unfold, get_az_token_spec, Hrun.
  destruct (decide (returncode cp = 0%Z)); [|done].
  fold token. rewrite Hbs. unfold pack_I_s. rewrite Hhd, pack_s_exact.
  reflexivity.
Qed.

End BrokerFacts.

(** *** The broker, run *)

Lemma get_connection_closes_on_every_exit_witness :
  events (get_connection World.env_sql (World.run_exit 0 "") World.connect_ok
            World.close_ok World.body_raises)
  = [EvConnect (World.base_conn_str +:+ "UID=u;PWD=p;") None;
     EvExecute (Conn 1) "SELECT 1/0" [];
     EvClose (Conn 1)]
  ∧ get_connection World.env_no_password (World.run_exit 0 "") World.connect_ok
      World.close_ok World.body_raises
    = ([], Raised (KeyError "AZURE_SQL_PASSWORD")).
Proof.
  split.
  - rewrite (proj1 (get_connection_closes_on_every_exit World.env_sql
               (World.run_exit 0 "") World.connect_ok World.close_ok
               World.body_raises) (Conn 1)); reflexivity.
  - exact (proj1 (proj2 (get_connection_closes_on_every_exit
               World.env_no_password (World.run_exit 0 "") World.connect_ok
               World.close_ok World.body_raises))
             (KeyError "AZURE_SQL_PASSWORD") eq_refl).
Defined.

(** C2, as the claim has it, fails: the block returns 7, the close raises,
    and the [with] statement ends in the error of the close. *)
Lemma close_error_not_swallowed :
  result (acquire World.env_sql (World.run_exit 0 "") World.connect_ok)
  = Returned (Conn 1)
  ∧ result (World.body_returns (Conn 1)) = Returned 7
  ∧ World.close_fails (Conn 1) = Raised (PyodbcError "close failed")
  ∧ get_connection World.env_sql (World.run_exit 0 "") World.connect_ok
      World.close_fails World.body_returns
    = ([EvConnect (World.base_conn_str +:+ "UID=u;PWD=p;") None; EvClose (Conn 1)],
       Raised (PyodbcError "close failed"))
  ∧ result (get_connection World.env_sql (World.run_exit 0 "") World.connect_ok
              World.close_fails World.body_returns)
    ≠ result (World.body_returns (Conn 1)).
Proof. repeat split; try reflexivity. discriminate. Qed.

Lemma close_error_propagates_witness :
  result (get_connection World.env_sql (World.run_exit 0 "") World.connect_ok
            World.close_fails World.body_raises)
  = Raised (PyodbcError "close failed").
Proof.
  apply (close_error_propagates World.env_sql (World.run_exit 0 "")
           World.connect_ok World.close_fails World.body_raises (Conn 1));
    reflexivity.
Defined.

(** C3, as the claim has it, fails: the provider exits with 0 and prints
    nothing, and the driver is asked to connect all the same. *)
Lemma empty_token_still_connects :
  PyStr.strip (stdout (mkCompleted 0 "")) = ""
  ∧ get_connection World.env_az (World.run_exit 0 "") World.connect_ok
      World.close_ok World.body_returns
    = ([EvRun az_command;
        EvConnect World.base_conn_str
          (Some [(ACCESS_TOKEN_ATTR, [x00; x00; x00; x00])]);
        EvClose (Conn 1)],
       Returned 7)
  ∧ Exists (λ ev, is_connect ev = true)
      (events (get_connection World.env_az (World.run_exit 0 "")
                 World.connect_ok World.close_ok World.body_returns)).
Proof.
  split; [reflexivity|]. split; [reflexivity|].
  apply Exists_cons_tl, Exists_cons_hd. reflexivity.
Qed.

Lemma az_cli_provider_outcomes_witness :
  get_connection World.env_az (World.run_exit 1 "") World.connect_ok
    World.close_ok World.body_returns
  = ([EvRun az_command], Raised (CalledProcessError 1))
  ∧ acquire World.env_az (World.run_exit 0 World.blank_line) World.connect_ok
    = ([EvRun az_command;
        EvConnect World.base_conn_str
          (Some [(ACCESS_TOKEN_ATTR, [x00; x00; x00; x00])])],
       Returned (Conn 1)).
Proof.
  split.
  - apply (proj1 (az_cli_provider_outcomes World.env_az (World.run_exit 1 "")
                    World.connect_ok World.close_ok World.base_conn_str
                    (mkCompleted 1 "") eq_refl eq_refl eq_refl)).
    simpl. lia.
  - apply (proj2 (az_cli_provider_outcomes World.env_az
                    (World.run_exit 0 World.blank_line)
                    World.connect_ok World.close_ok World.base_conn_str
                    (mkCompleted 0 World.blank_line) eq_refl eq_refl eq_refl));
      reflexivity.
Defined.

Lemma static_credentials_connect_witness :
  acquire World.env_sql (World.run_exit 0 "") World.connect_ok
  = ([EvConnect (World.base_conn_str +:+ "UID=u;PWD=p;") None],
     Returned (Conn 1))
  ∧ get_connection World.env_sql (World.run_exit 0 "") World.connect_ok
      World.close_ok World.body_returns
    = ([EvConnect (World.base_conn_str +:+ "UID=u;PWD=p;") None; EvClose (Conn 1)],
       Returned 7).
Proof.
  destruct (static_credentials_connect World.env_sql (World.run_exit 0 "")
              World.connect_ok World.close_ok World.base_conn_str "u" "p"
              ltac:(discriminate) eq_refl eq_refl eq_refl) as (H1 & _ & H3).
  split; [exact H1|]. exact (H3 nat World.body_returns).
Defined.


(** ** The token of the delegated path *)

Lemma unit_of_bytes (z : Z) :
  (0 ≤ z < 65536)%Z →
  (Z_of_byte (byte_of_Z z) + 256 * Z_of_byte (byte_of_Z (Z.shiftr z 8)))%Z = z.
Proof.
  intros Hz. rewrite !Z_of_byte_of_Z, Z.shiftr_div_pow2 by lia.
  change (2 ^ 8)%Z with 256%Z. Z.div_mod_to_equations. lia.
Qed.

(** One code point of the basic plane is one unit; one above it is a high
    and a low surrogate that give the code point back. *)
Lemma utf16le_code_point_scalar (cp : Z) :
  is_scalar cp = true →
  ∃ b units,
    utf16le_code_point cp = Returned b
    ∧ length b = (if (cp <? 65536)%Z then 2 else 4)
    ∧ (∀ bs us, utf16le_units bs = Some us →
                utf16le_units (b ++ bs) = Some (units ++ us))
    ∧ (∀ us cps, utf16_points us = Some cps →
                 utf16_points (units ++ us) = Some (cp :: cps)).
Proof.
  unfold is_scalar, utf16le_code_point. intros Hcp.
  destruct (cp <? 65536)%Z eqn:Hbmp.
  - assert (((55296 <=? cp) && (cp <=? 57343))%Z = false) as Hs by lia.
    rewrite Hs. eexists _, [cp]. split; [done|]. split; [done|]. split.
    + intros bs us Hus. simpl. rewrite Hus. by rewrite unit_of_bytes by lia.
    + intros us cps Hcps. simpl.
      assert (((55296 <=? cp) && (cp <=? 56319))%Z = false) as -> by lia.
      assert (((56320 <=? cp) && (cp <=? 57343))%Z = false) as -> by lia.
      by rewrite Hcps.
  - set (v := (cp - 65536)%Z).
    assert (0 ≤ v < 1048576)%Z by (unfold v; lia).
    assert (Hland : Z.land v 1023 = (v `mod` 1024)%Z).
    { change 1023%Z with (Z.ones 10). by rewrite Z.land_ones. }
    assert (Hshift : Z.shiftr v 10 = (v `div` 1024)%Z).
    { by rewrite Z.shiftr_div_pow2. }
    rewrite Hland, Hshift.
    assert (0 ≤ v `div` 1024 < 1024)%Z by (Z.div_mod_to_equations; lia).
    assert (0 ≤ v `mod` 1024 < 1024)%Z by (Z.div_mod_to_equations; lia).
    eexists _, [(55296 + v `div` 1024)%Z; (56320 + v `mod` 1024)%Z].
    split; [done|]. split; [done|]. split.
    + intros bs us Hus. simpl. rewrite Hus.
      by rewrite !unit_of_bytes by lia.
    + intros us cps Hcps. simpl.
      assert (((55296 <=? 55296 + v `div` 1024)
               && (55296 + v `div` 1024 <=? 56319))%Z = true) as -> by lia.
      assert (((56320 <=? 56320 + v `mod` 1024)
               && (56320 + v `mod` 1024 <=? 57343))%Z = true) as -> by lia.
      rewrite Hcps. do 2 f_equal. unfold v in *. Z.div_mod_to_equations. lia.
Qed.

(** Text without surrogates always encodes, and the reader gives it back. *)
Lemma encode_utf16le_points_spec (t : list Z) :
  Forall (λ cp, is_scalar cp = true) t →
  ∃ bs units,
    encode_utf16le_points t = Returned bs
    ∧ utf16le_units bs = Some units
    ∧ utf16_points units = Some t
    ∧ length bs = utf16le_size t.
Proof.
  induction 1 as [|cp t Hcp _ (bs & units & Hbs & Hunits & Hpoints & Hlen)].
  - by exists [], [].
  - destruct (utf16le_code_point_scalar cp Hcp) as (b & us & Hb & Hblen & Hu & Hp).
    exists (b ++ bs), (us ++ units). simpl. rewrite Hb, Hbs.
    split; [done|]. split; [by apply Hu|]. split; [by apply Hp|].
    rewrite length_app, Hblen, Hlen. unfold utf16le_size. simpl. done.
Qed.

Lemma decode_encode_utf16le (t : list Z) bs :
  Forall (λ cp, is_scalar cp = true) t →
  encode_utf16le_points t = Returned bs → decode_utf16le bs = Some t.
Proof.
  intros Ht Hbs.
  destruct (encode_utf16le_points_spec t Ht) as (bs' & units & Hbs' & Hu & Hp & _).
  rewrite Hbs in Hbs'. injection Hbs' as <-. unfold decode_utf16le. by rewrite Hu.
Qed.

(** *** The wide model agrees with the narrow one *)

Lemma isspace_point_ord (c : ascii) : isspace_point (ord c) = PyStr.isspace c.
Proof. destruct c as [[] [] [] [] [] [] [] []]; reflexivity. Qed.

Lemma code_points_app (s t : string) :
  code_points (s +:+ t) = code_points s ++ code_points t.
Proof.
  induction s as [|c s IH]; [done|].
  change (String c s +:+ t) with (String c (s +:+ t)). simpl. by rewrite IH.
Qed.

Lemma code_points_rev (s : string) : code_points (PyStr.rev s) = rev (code_points s).
Proof.
  induction s as [|c s IH]; [done|]. simpl. by rewrite code_points_app, IH.
Qed.

Lemma code_points_lstrip (s : string) :
  code_points (PyStr.lstrip s) = lstrip_points (code_points s).
Proof.
  induction s as [|c s IH]; [done|]. simpl. rewrite isspace_point_ord.
  by destruct (PyStr.isspace c).
Qed.

Lemma code_points_strip (s : string) :
  code_points (PyStr.strip s) = strip_points (code_points s).
Proof.
  unfold PyStr.strip, PyStr.rstrip, strip_points, rstrip_points.
  by rewrite code_points_rev, code_points_lstrip, code_points_rev, code_points_lstrip.
Qed.

Lemma encode_utf16le_code_points (s : string) :
  encode_utf16le_points (code_points s) = encode_utf16le s.
Proof. induction s as [|c s IH]; [done|]. simpl. by rewrite IH. Qed.

Section BrokerWideFacts.

Context (environ : gmap string string).
Context (run_process : list string → outcome CompletedProcess).
Context (run_text : list string → outcome CompletedText).
Context (pyodbc_connect : string → option (list (Z * bytes)) → outcome Connection).
Context (conn_close : Connection → outcome unit).

Abbreviation get_connection' :=
  (get_connection environ run_process pyodbc_connect conn_close).
Abbreviation get_connection_wide' :=
  (get_connection_wide environ run_text pyodbc_connect conn_close).

Lemma get_az_token_wide_spec :
  _get_az_token_wide run_text =
    ([EvRun az_command],
     match run_text az_command with
     | Raised e => Raised e
     | Returned cp =>
         if decide (text_returncode cp = 0%Z)
         then Returned (strip_points (text_stdout cp))
         else Raised (CalledProcessError (text_returncode cp))
     end).
Proof.
  unfold _get_az_token_wide, subprocess_run_check_wide. rewrite !bind_unfold. simpl.
  destruct (run_text az_command) as [cp|e]; [|done].
  by destruct (decide (text_returncode cp = 0%Z)).
Qed.

(** [get_connection_wide] around what it does before the [yield]. *)
Lemma get_connection_wide_spec {A} (body : Connection → M A) cs :
  result (_build_conn_str environ) = Returned cs →
  get_connection_wide' body =
    match open_connection_wide environ run_text pyodbc_connect
            (PyStr.lower (environ_get environ "AZURE_SQL_AUTH" "sql")) cs with
    | (pre, Returned c) =>
        (pre ++ events (body c) ++ [EvClose c],
         match conn_close c with
         | Returned _ => result (body c)
         | Raised e => Raised e
         end)
    | (pre, Raised e) => (pre, Raised e)
    end.
Proof.
  intros Hcs. unfold get_connection_wide.
  rewrite (build_conn_str_returned _ _ Hcs).
  change (([], Returned cs) : M string) with (mret cs : M string).
  rewrite bind_ret_l. rewrite bind_unfold. unfold attempt. simpl.
  destruct (open_connection_wide _ _ _ _ _) as [pre [c|e]]; simpl.
  - unfold events, result.
    by destruct (conn_close c) as [[]|e].
  - by rewrite app_nil_r.
Qed.

(** On a provider that prints text of code points below 256 the two
    models are one. *)
Lemma get_connection_wide_agrees {A} (body : Connection → M A) :
  get_connection_wide environ (λ args, widen_outcome (run_process args))
    pyodbc_connect conn_close body
  = get_connection' body.
Proof.
  unfold get_connection_wide, get_connection.
  assert (∀ auth cs,
            open_connection_wide environ (λ args, widen_outcome (run_process args))
              pyodbc_connect auth cs
            = open_connection environ run_process pyodbc_connect auth cs)
    as Hopen.
  { intros auth cs. unfold open_connection_wide, open_connection.
    destruct (decide (auth = "az_cli")) as [_|_]; [|done].
    unfold _get_az_token_wide, _get_az_token, subprocess_run_check_wide,
      subprocess_run_check.
    rewrite !bind_unfold. simpl.
    destruct (run_process az_command) as [cp|e]; simpl; [|done].
    destruct (decide (returncode cp = 0%Z)) as [_|_]; simpl; [|done].
    by rewrite <- code_points_strip, encode_utf16le_code_points. }
  destruct (_build_conn_str environ) as [evs [cs|e]]; [|done].
  rewrite !bind_unfold. by rewrite Hopen.
Qed.

(** Text with a surrogate in it does not encode, and then nothing is asked
    of the driver. *)
Lemma surrogate_token_stops_before_connect {A} (body : Connection → M A) cs cp :
  PyStr.lower (environ_get environ "AZURE_SQL_AUTH" "sql") = "az_cli" →
  result (_build_conn_str environ) = Returned cs →
  run_text az_command = Returned cp →
  text_returncode cp = 0%Z →
  Exists (λ p, (55296 ≤ p ≤ 57343)%Z) (strip_points (text_stdout cp)) →
  get_connection_wide' body = ([EvRun az_command], Raised UnicodeEncodeError).
Proof.
  intros Hauth Hcs Hrun Hrc Hsur.
  rewrite (get_connection_wide_spec body cs Hcs), Hauth.
  assert (encode_utf16le_points (strip_points (text_stdout cp))
          = Raised UnicodeEncodeError) as Henc.
  { induction (strip_points (text_stdout cp)) as [|p t IH]; [by inversion Hsur|].
    simpl. unfold utf16le_code_point.
    destruct (decide (55296 ≤ p ≤ 57343)%Z) as [Hp|Hp].
    - assert ((p <? 65536)%Z = true) as -> by lia.
      by assert (((55296 <=? p) && (p <=? 57343))%Z = true) as -> by lia.
    - apply Exists_cons in Hsur as [?|Hsur]; [done|]. rewrite (IH Hsur).
      destruct (p <? 65536)%Z; [|done].
      by destruct ((55296 <=? p) && (p <=? 57343))%Z. }
  unfold open_connection_wide. simpl.
  rewrite bind_unfold, get_az_token_wide_spec, Hrun.
  destruct (decide (text_returncode cp = 0%Z)); [|done].
  by rewrite Henc.
Qed.

(** C9.  In delegated-identity mode [get_connection] runs the identity
    provider and then asks the driver to connect with the base string
    alone and the token as the access-token pre-connect attribute; the
    block and the close follow.  The attribute's value is four bytes
    holding, least significant first, the byte length of what follows, and
    then the token in UTF-16LE.  This is so on the strings of code points
    below 256, where every character is one unit, and on text of any code
    points without surrogates, where the reader of UTF-16 gives the token
    back from the bytes. *)
Theorem az_cli_token_attribute cs :
  PyStr.lower (environ_get environ "AZURE_SQL_AUTH" "sql") = "az_cli" →
  result (_build_conn_str environ) = Returned cs →
  (∀ cp,
     run_process az_command = Returned cp →
     returncode cp = 0%Z →
     let token := PyStr.strip (stdout cp) in
     (2 * Z.of_nat (PyStr.len token) < 4294967296)%Z →
     ∃ prefix token_bytes,
       encode_utf16le token = Returned token_bytes
       ∧ utf16le_units token_bytes = Some (code_points token)
       ∧ length token_bytes = 2 * PyStr.len token
       ∧ length prefix = 4
       ∧ unpack_u32_le prefix = Some (Z.of_nat (length token_bytes))
       ∧ acquire environ run_process pyodbc_connect
         = ([EvRun az_command;
             EvConnect cs (Some [(ACCESS_TOKEN_ATTR, prefix ++ token_bytes)])],
            pyodbc_connect cs (Some [(ACCESS_TOKEN_ATTR, prefix ++ token_bytes)]))
       ∧ ∀ A (body : Connection → M A),
           get_connection' body
           = match pyodbc_connect cs
                     (Some [(ACCESS_TOKEN_ATTR, prefix ++ token_bytes)]) with
             | Returned c =>
                 ([EvRun az_command;
                   EvConnect cs (Some [(ACCESS_TOKEN_ATTR, prefix ++ token_bytes)])]
                  ++ events (body c) ++ [EvClose c],
                  match conn_close c with
                  | Returned _ => result (body c)
                  | Raised e => Raised e
                  end)
             | Raised e =>
                 ([EvRun az_command;
                   EvConnect cs (Some [(ACCESS_TOKEN_ATTR, prefix ++ token_bytes)])],
                  Raised e)
             end)
  ∧ (∀ cp,
       run_text az_command = Returned cp →
       text_returncode cp = 0%Z →
       let token := strip_points (text_stdout cp) in
       Forall (λ p, is_scalar p = true) token →
       (Z.of_nat (utf16le_size token) < 4294967296)%Z →
       ∃ prefix token_bytes,
         encode_utf16le_points token = Returned token_bytes
         ∧ decode_utf16le token_bytes = Some token
         ∧ length token_bytes = utf16le_size token
         ∧ length prefix = 4
         ∧ unpack_u32_le prefix = Some (Z.of_nat (length token_bytes))
         ∧ ∀ A (body : Connection → M A),
             get_connection_wide' body
             = match pyodbc_connect cs
                       (Some [(ACCESS_TOKEN_ATTR, prefix ++ token_bytes)]) with
               | Returned c =>
                   ([EvRun az_command;
                     EvConnect cs (Some [(ACCESS_TOKEN_ATTR, prefix ++ token_bytes)])]
                    ++ events (body c) ++ [EvClose c],
                    match conn_close c with
                    | Returned _ => result (body c)
                    | Raised e => Raised e
                    end)
               | Raised e =>
                   ([EvRun az_command;
                     EvConnect cs (Some [(ACCESS_TOKEN_ATTR, prefix ++ token_bytes)])],
                    Raised e)
               end).
Proof.
  intros Hauth Hcs. split.
  - intros cp Hrun Hrc token Hlen.
    destruct (acquire_az_cli environ run_process pyodbc_connect cs cp
                Hauth Hcs Hrun Hrc Hlen)
      as (prefix & bs & H1 & H2 & H3 & H4 & H5 & Hacq).
    exists prefix, bs. do 5 (split; [done|]). split; [done|].
    intros A body. rewrite get_connection_spec, Hacq.
    by destruct (pyodbc_connect cs _).
  - intros cp Hrun Hrc token Hscalar Hsize.
    destruct (encode_utf16le_points_spec token Hscalar)
      as (bs & units & Hbs & Hunits & Hpoints & Hlen).
    destruct (pack_u32_le_spec (Z.of_nat (length bs)))
      as (hd & Hhd & Hhdlen & Hunpack); [lia|].
    exists hd, bs. split; [done|].
    split; [unfold decode_utf16le; by rewrite Hunits|].
    do 3 (split; [done|]).
    intros A body. rewrite (get_connection_wide_spec body cs Hcs), Hauth.
    assert (open_connection_wide environ run_text pyodbc_connect "az_cli" cs
            = ([EvRun az_command; EvConnect cs (Some [(ACCESS_TOKEN_ATTR, hd ++ bs)])],
               pyodbc_connect cs (Some [(ACCESS_TOKEN_ATTR, hd ++ bs)]))) as ->.
    { unfold open_connection_wide. simpl.
      rewrite bind_unfold, get_az_token_wide_spec, Hrun.
      destruct (decide (text_returncode cp = 0%Z)); [|done].
      fold token. rewrite Hbs. unfold pack_I_s. rewrite Hhd, pack_s_exact.
      reflexivity. }
    by destruct (pyodbc_connect cs _).
Qed.

End BrokerWideFacts.

Lemma az_cli_token_attribute_witness :
  (∃ prefix token_bytes,
     encode_utf16le "eyJ0" = Returned token_bytes
     ∧ utf16le_units token_bytes = Some [101; 121; 74; 48]%Z
     ∧ length token_bytes = 8
     ∧ unpack_u32_le prefix = Some 8%Z
     ∧ get_connection World.env_az (World.run_exit 0 World.token_line)
         World.connect_ok World.close_ok World.body_returns
       = ([EvRun az_command;
           EvConnect World.base_conn_str
             (Some [(ACCESS_TOKEN_ATTR, prefix ++ token_bytes)]);
           EvClose (Conn 1)],
          Returned 7))
  ∧ (∃ prefix token_bytes,
       encode_utf16le_points [101; 128512]%Z = Returned token_bytes
       ∧ decode_utf16le token_bytes = Some [101; 128512]%Z
       ∧ length token_bytes = 6
       ∧ unpack_u32_le prefix = Some 6%Z
       ∧ get_connection_wide World.env_az
           (Scenario.run_text_exit 0 Scenario.wide_line)
           World.connect_ok World.close_ok World.body_returns
         = ([EvRun az_command;
             EvConnect World.base_conn_str
               (Some [(ACCESS_TOKEN_ATTR, prefix ++ token_bytes)]);
             EvClose (Conn 1)],
            Returned 7)).
Proof.
  destruct (az_cli_token_attribute World.env_az
              (World.run_exit 0 World.token_line)
              (Scenario.run_text_exit 0 Scenario.wide_line)
              World.connect_ok World.close_ok World.base_conn_str
              eq_refl eq_refl) as [Hnarrow Hwide].
  split.
  - destruct (Hnarrow (mkCompleted 0 World.token_line) eq_refl eq_refl)
      as (prefix & token_bytes & H1 & H2 & H3 & _ & H5 & _ & H7).
    + vm_compute. reflexivity.
    + exists prefix, token_bytes. rewrite H3 in H5.
      exact (conj H1 (conj H2 (conj H3 (conj H5 (H7 nat World.body_returns))))).
  - destruct (Hwide (mkCompletedText 0 Scenario.wide_line) eq_refl eq_refl)
      as (prefix & token_bytes & H1 & H2 & H3 & _ & H5 & H6).
    + repeat constructor.
    + vm_compute. reflexivity.
    + exists prefix, token_bytes. rewrite H3 in H5.
      exact (conj H1 (conj H2 (conj H3 (conj H5 (H6 nat World.body_returns))))).
Defined.

(** ** Resource URIs *)

Lemma replace_absent (old new s : string) :
  PyStr.contains old s = false → PyStr.replace s old new = s.
Proof.
  unfold PyStr.replace. induction s as [|c s IH]; [done|].
  intros H. cbn [PyStr.contains] in H. apply orb_false_iff in H as [H1 H2].
  cbn [PyStr.replace_go]. rewrite H1. f_equal. by apply IH.
Qed.

Lemma split1_none (sep : ascii) (s : string) :
  PyStr.contains_char sep s = false → PyStr.split1 sep s = [s].
Proof.
  induction s as [|c s IH]; [done|]. simpl.
  destruct (ascii_dec c sep); [done|]. intros H. by rewrite (IH H).
Qed.

Lemma split1_first (sep : ascii) (a b : string) :
  PyStr.contains_char sep a = false →
  PyStr.split1 sep (a +:+ String sep b) = [a; b].
Proof.
  induction a as [|c a IH]; simpl.
  - intros _. by destruct (ascii_dec sep sep).
  - destruct (ascii_dec c sep); [done|]. intros H. by rewrite (IH H).
Qed.

Lemma split1_inv (sep : ascii) (s a b : string) :
  PyStr.split1 sep s = [a; b] →
  s = a +:+ String sep b ∧ PyStr.contains_char sep a = false.
Proof.
  revert a. induction s as [|c s IH]; intros a; simpl; [done|].
  destruct (ascii_dec c sep) as [->|Hc].
  - intros [= <- <-]. done.
  - destruct (PyStr.split1 sep s) as [|a' [|b' [|]]] eqn:E; try done.
    intros [= <- <-]. destruct (IH a' eq_refl) as [-> Ha'].
    simpl. by destruct (ascii_dec c sep).
Qed.

(** C5, as the code has it.  The scheme text is removed and the rest is
    cut at its first dot.  Parsing fails exactly when there is no dot;
    otherwise the schema is what stands before the first dot and the table
    what stands after it, and either may be empty. *)
Theorem resource_parts_first_dot (uri : string) :
  let path := PyStr.replace uri "mssql://" "" in
  (∀ rest, uri = "mssql://" +:+ rest →
           PyStr.contains "mssql://" rest = false → path = rest)
  ∧ (PyStr.contains_char "." path = false →
     resource_parts uri = Raised (ValueError ("Invalid resource URI: " +:+ uri)))
  ∧ (∀ schema table,
       path = schema +:+ "." +:+ table →
       PyStr.contains_char "." schema = false →
       resource_parts uri = Returned (schema, table))
  ∧ (∀ schema table,
       resource_parts uri = Returned (schema, table) →
       path = schema +:+ "." +:+ table
       ∧ PyStr.contains_char "." schema = false)
  ∧ resource_parts "mssql://dbo.Customers" = Returned ("dbo", "Customers")
  ∧ resource_parts "mssql://bad"
    = Raised (ValueError "Invalid resource URI: mssql://bad").
Proof.
  intros path. split; [|split; [|split; [|split; [|split]]]]; try reflexivity.
  - intros rest -> Hrest. unfold path.
    change (PyStr.replace ("mssql://" +:+ rest) "mssql://" "")
      with (PyStr.replace rest "mssql://" "").
    by apply replace_absent.
  - intros Hnone. unfold resource_parts. fold path.
    by rewrite (split1_none _ _ Hnone).
  - intros schema table Hpath Hschema. unfold resource_parts. fold path.
    rewrite Hpath. change ("." +:+ table) with (String "." table).
    by rewrite (split1_first _ _ _ Hschema).
  - intros schema table. unfold resource_parts. fold path.
    destruct (decide _) as [|Hlen]; [done|].
    destruct (PyStr.split1 "." path) as [|a [|b [|]]] eqn:E; try done.
    intros [= <- <-]. by apply split1_inv.
Qed.

Lemma resource_parts_first_dot_witness :
  resource_parts "mssql://bad"
  = Raised (ValueError "Invalid resource URI: mssql://bad")
  ∧ resource_parts "mssql://sales.Order.Lines" = Returned ("sales", "Order.Lines")
  ∧ PyStr.replace "mssql://dbo.Customers" "mssql://" "" = "dbo.Customers".
Proof.
  split; [|split].
  - apply (proj1 (proj2 (resource_parts_first_dot "mssql://bad"))).
    reflexivity.
  - apply (proj1 (proj2 (proj2 (resource_parts_first_dot
                                  "mssql://sales.Order.Lines")))); reflexivity.
  - apply (proj1 (resource_parts_first_dot "mssql://dbo.Customers")
             "dbo.Customers"); reflexivity.
Defined.

(** C5, as the claim has it, fails: the rest [dbo.] has an empty second
    part, and parsing returns it. *)
Lemma resource_parts_empty_table :
  PyStr.replace "mssql://dbo." "mssql://" "" = "dbo."
  ∧ PyStr.split1 "." "dbo." = ["dbo"; ""]
  ∧ resource_parts "mssql://dbo." = Returned ("dbo", "")
  ∧ resource_parts "mssql://dbo."
    ≠ Raised (ValueError "Invalid resource URI: mssql://dbo.").
Proof. repeat split; try reflexivity. discriminate. Qed.

(** ** Resources and tools *)

Section ServerFacts.

Context (environ : gmap string string).
Context (run_process : list string → outcome CompletedProcess).
Context (pyodbc_connect : string → option (list (Z * bytes)) → outcome Connection).
Context (conn_close : Connection → outcome unit).
Context (cursor_execute : Connection → string → list string → outcome Cursor).
Context (int_of_str : string → outcome Z).

Abbreviation acquire' := (acquire environ run_process pyodbc_connect).
Abbreviation read_resource' :=
  (read_resource environ run_process pyodbc_connect conn_close cursor_execute).
Abbreviation call_tool_sample_table' :=
  (call_tool_sample_table environ run_process pyodbc_connect conn_close
     cursor_execute int_of_str).

Lemma sample_rows_default (arguments : gmap string arg) :
  arguments !! "rows" = None → sample_rows int_of_str arguments = Returned 50%Z.
Proof. intros H. unfold sample_rows. by rewrite H. Qed.

Lemma sample_rows_int (arguments : gmap string arg) r :
  py_int int_of_str (default (AInt 50) (arguments !! "rows")) = Returned r →
  sample_rows int_of_str arguments = Returned (r `min` 500)%Z.
Proof. intros H. unfold sample_rows. by rewrite H. Qed.

(** C4, as the code has it.  Let [r] be the requested count as [int]
    reads it (50 when [rows] is absent).  The count written into the [TOP]
    clause is the smaller of [r] and 500: never more than 500, 500 for
    every request of 500 or more, and the request itself, negative or
    not, below that. *)
Theorem sample_table_row_count (arguments : gmap string arg) schema table r c :
  arguments !! "schema" = Some schema →
  arguments !! "table" = Some table →
  py_int int_of_str (default (AInt 50) (arguments !! "rows")) = Returned r →
  result acquire' = Returned c →
  let n := (r `min` 500)%Z in
  events (call_tool_sample_table' arguments)
  = events acquire'
    ++ [EvExecute c (select_top (pretty n) (format_arg schema) (format_arg table)) [];
        EvClose c]
  ∧ (n ≤ 500)%Z
  ∧ (500 ≤ r → n = 500)%Z
  ∧ (r ≤ 500 → n = r)%Z.
Proof.
  intros Hs Ht Hr Hc n. split; [|lia].
  unfold call_tool_sample_table. rewrite get_connection_spec.
  destruct acquire' as [pre [c'|e]]; simpl in *; [|done].
  injection Hc as ->. f_equal.
  unfold arguments_getitem. rewrite Hs, Ht, (sample_rows_int _ _ Hr).
  unfold execute. rewrite !bind_unfold. simpl. fold n.
  destruct (cursor_execute c _ []) as [cur|e]; simpl; [|done].
  by destruct (_rows_to_text cur).
Qed.

(** C10.  Reading a table resource runs one statement, a [TOP 100]
    selection from the table the URI names, the statement [sample_table]
    runs for a request of 100 rows, and returns the rendering of what
    the driver hands back for it. *)
Theorem read_resource_top_100 uri schema table c :
  resource_parts uri = Returned (schema, table) →
  result acquire' = Returned c →
  let sql := "SELECT TOP 100 * FROM [" +:+ schema +:+ "].[" +:+ table +:+ "]" in
  events (read_resource' uri) = events acquire' ++ [EvExecute c sql []; EvClose c]
  ∧ sql = select_top (pretty 100%Z) schema table
  ∧ (conn_close c = Returned tt →
     result (read_resource' uri)
     = match cursor_execute c sql [] with
       | Returned cursor => _rows_to_text cursor
       | Raised e => Raised e
       end).
Proof.
  intros Hparts Hc sql. unfold read_resource.
  rewrite Hparts. unfold from_outcome at 1. rewrite bind_unfold. simpl.
  rewrite get_connection_spec.
  destruct acquire' as [pre [c'|e]]; simpl in *; [|done].
  injection Hc as ->.
  change (select_top "100" schema table) with sql.
  unfold execute. rewrite ?bind_unfold. simpl.
  destruct (cursor_execute c sql []) as [cur|e]; simpl.
  - split; [done|]. split; [done|]. by intros ->.
  - split; [done|]. split; [done|]. by intros ->.
Qed.

End ServerFacts.

Lemma sample_table_row_count_witness :
  events (call_tool_sample_table World.env_sql (World.run_exit 0 "")
            World.connect_ok World.close_ok World.execute_table1
            World.int_of_str_fails World.args_thousand)
  = [EvConnect (World.base_conn_str +:+ "UID=u;PWD=p;") None;
     EvExecute (Conn 1) "SELECT TOP 500 * FROM [dbo].[t]" [];
     EvClose (Conn 1)].
Proof.
  apply (proj1 (sample_table_row_count World.env_sql (World.run_exit 0 "")
                  World.connect_ok World.close_ok World.execute_table1
                  World.int_of_str_fails World.args_thousand
                  (AStr "dbo") (AStr "t") 1000 (Conn 1)
                  eq_refl eq_refl eq_refl eq_refl)).
Defined.

(** C4, as the claim has it, fails: a request of -1 rows is not raised to
    0; the statement asks for [TOP -1]. *)
Lemma sample_table_negative_rows :
  sample_rows World.int_of_str_fails World.args_minus_one = Returned (-1)%Z
  ∧ events (call_tool_sample_table World.env_sql (World.run_exit 0 "")
              World.connect_ok World.close_ok World.execute_table1
              World.int_of_str_fails World.args_minus_one)
    = [EvConnect (World.base_conn_str +:+ "UID=u;PWD=p;") None;
       EvExecute (Conn 1) "SELECT TOP -1 * FROM [dbo].[t]" [];
       EvClose (Conn 1)]
  ∧ ¬ (0 ≤ -1 `min` 500)%Z.
Proof. split; [reflexivity|]. split; [reflexivity|]. lia. Qed.

Lemma read_resource_top_100_witness :
  events (read_resource World.env_sql (World.run_exit 0 "") World.connect_ok
            World.close_ok World.execute_table1 "mssql://dbo.Customers")
  = [EvConnect (World.base_conn_str +:+ "UID=u;PWD=p;") None;
     EvExecute (Conn 1) "SELECT TOP 100 * FROM [dbo].[Customers]" [];
     EvClose (Conn 1)].
Proof.
  apply (proj1 (read_resource_top_100 World.env_sql (World.run_exit 0 "")
                  World.connect_ok World.close_ok World.execute_table1
                  "mssql://dbo.Customers" "dbo" "Customers" (Conn 1)
                  eq_refl eq_refl)).
Defined.

(** ** The renderer *)

Lemma len_app (s t : string) : PyStr.len (s +:+ t) = PyStr.len s + PyStr.len t.
Proof. unfold PyStr.len. induction s as [|c s IH]; simpl; [done|by rewrite IH]. Qed.

Lemma len_spaces (n : nat) : PyStr.len (PyStr.spaces n) = n.
Proof. unfold PyStr.len. induction n as [|n IH]; simpl; [done|by rewrite IH]. Qed.

Lemma len_times (c : ascii) (n : nat) : PyStr.len (PyStr.times c n) = n.
Proof. unfold PyStr.len. induction n as [|n IH]; simpl; [done|by rewrite IH]. Qed.

Lemma len_ljust (s : string) (w : nat) :
  PyStr.len s ≤ w → PyStr.len (PyStr.ljust s w) = w.
Proof. intros H. unfold PyStr.ljust. rewrite len_app, len_spaces. lia. Qed.

(** [str(None)] and the token [NULL] are equally long. *)
Lemma len_py_str_cell (v : value) : PyStr.len (py_str v) = PyStr.len (cell_text v).
Proof. by destruct v. Qed.

Lemma col_width_wf rows i col :
  Forall (λ row : list value, i < length row) rows →
  col_width rows i col = Some (column_max_width rows i col).
Proof.
  intros Hwf. unfold col_width, column_max_width.
  assert (mapM (λ row : list value, v ← row !! i; Some (PyStr.len (py_str v))) rows
          = Some (column_lens rows i)) as ->; [|done].
  induction Hwf as [|row rows Hi _ IH]; [done|].
  destruct (lookup_lt_is_Some_2 row i Hi) as [v Hv].
  unfold column_lens. simpl. rewrite Hv. simpl. rewrite IH. simpl.
  by rewrite len_py_str_cell.
Qed.

Lemma col_widths_wf columns rows :
  Forall (λ row : list value, length row = length columns) rows →
  col_widths columns rows = Some (imap (column_max_width rows) columns).
Proof.
  intros Hwf. apply mapM_Some_2, Forall2_same_length_lookup_2.
  - unfold enumerate. by rewrite !length_imap.
  - intros i [j col] w. unfold enumerate. rewrite !list_lookup_imap.
    destruct (columns !! i) as [col'|] eqn:Hcol; simpl; [|done].
    intros [= <- <-] [= <-]. apply col_width_wf.
    apply lookup_lt_Some in Hcol.
    eapply Forall_impl; [exact Hwf|]. simpl. intros row Hrow. lia.
Qed.

Lemma header_cells_wf widths columns :
  length widths = length columns →
  header_cells widths columns = Some (zip_with PyStr.ljust columns widths).
Proof.
  intros Hlen. apply mapM_Some_2, Forall2_same_length_lookup_2.
  - unfold enumerate. rewrite length_imap, length_zip_with. lia.
  - intros i [j col] cell. unfold enumerate.
    rewrite list_lookup_imap, lookup_zip_with.
    destruct (columns !! i) as [col'|]; simpl; [|done].
    intros [= <- <-]. by destruct (widths !! i).
Qed.

Lemma row_cells_wf widths (row : list value) :
  length row = length widths →
  row_cells widths row
  = Some (zip_with (λ v w, PyStr.ljust (cell_text v) w) row widths).
Proof.
  intros Hlen. apply mapM_Some_2, Forall2_same_length_lookup_2.
  - unfold enumerate. rewrite length_imap, length_zip_with. lia.
  - intros i [j v] cell. unfold enumerate.
    rewrite list_lookup_imap, lookup_zip_with.
    destruct (row !! i) as [v'|]; simpl; [|done].
    intros [= <- <-]. by destruct (widths !! i).
Qed.

(** On rows that all have one value per column nothing is out of range,
    and the lines are these. *)
Lemma render_lines_wf columns rows :
  Forall (λ row : list value, length row = length columns) rows →
  let widths := imap (column_max_width rows) columns in
  render_lines columns rows
  = Some ([sep_line widths; frame (zip_with PyStr.ljust columns widths);
           sep_line widths]
          ++ ((λ row, frame (zip_with (λ v w, PyStr.ljust (cell_text v) w)
                               row widths)) <$> rows)
          ++ [sep_line widths; footer (length rows)]).
Proof.
  intros Hwf widths. unfold render_lines.
  rewrite (col_widths_wf _ _ Hwf). fold widths. simpl.
  assert (Hlen : length widths = length columns)
    by (unfold widths; by rewrite length_imap).
  rewrite (header_cells_wf _ _ Hlen). simpl.
  assert (mapM (λ row, frame <$> row_cells widths row) rows
          = Some ((λ row, frame (zip_with (λ v w, PyStr.ljust (cell_text v) w)
                                   row widths)) <$> rows)) as ->; [|done].
  apply mapM_Some_2, Forall2_fmap_r, Forall_Forall2_diag.
  eapply Forall_impl; [exact Hwf|]. simpl. intros row Hrow.
  rewrite row_cells_wf by lia. done.
Qed.

Lemma len_join_cells (cells : list string) (widths : list nat) :
  Forall2 (λ cell w, PyStr.len cell = w) cells widths →
  PyStr.len (PyStr.join " | " cells)
  = sum_list widths + 3 * (length widths - 1).
Proof.
  induction 1 as [|cell w cells widths Hcell Hrest IH]; [done|].
  destruct Hrest as [|cell' w' cells' widths' Hcell' Hrest'].
  - simpl. lia.
  - change (PyStr.join " | " (cell :: cell' :: cells'))
      with (cell +:+ " | " +:+ PyStr.join " | " (cell' :: cells')).
    rewrite !len_app, IH, Hcell.
    change (PyStr.len " | ") with 3. simpl. lia.
Qed.

Lemma len_frame (cells : list string) (widths : list nat) :
  Forall2 (λ cell w, PyStr.len cell = w) cells widths →
  PyStr.len (frame cells) = line_width widths.
Proof.
  intros H. unfold frame, line_width.
  rewrite !len_app, (len_join_cells _ _ H). unfold PyStr.len. simpl. lia.
Qed.

Lemma len_sep_line (widths : list nat) :
  PyStr.len (sep_line widths) = line_width widths.
Proof.
  unfold sep_line, line_width. rewrite !len_app.
  assert (PyStr.len (PyStr.join "-+-" (PyStr.times "-" <$> widths))
          = sum_list widths + 3 * (length widths - 1)) as ->.
  { induction widths as [|w [|w' widths] IH]; [done|simpl; rewrite len_times; lia|].
    change (PyStr.join "-+-" (PyStr.times "-" <$> w :: w' :: widths))
      with (PyStr.times "-" w +:+ "-+-"
            +:+ PyStr.join "-+-" (PyStr.times "-" <$> w' :: widths)).
    rewrite !len_app, IH, len_times.
    change (PyStr.len "-+-") with 3. simpl. lia. }
  unfold PyStr.len. simpl. lia.
Qed.

Lemma column_max_width_name rows i col :
  PyStr.len col ≤ column_max_width rows i col.
Proof. unfold column_max_width. lia. Qed.

Lemma column_max_width_value rows (row : list value) i col v :
  row ∈ rows → row !! i = Some v →
  PyStr.len (cell_text v) ≤ column_max_width rows i col.
Proof.
  intros Hrow Hv. unfold column_max_width.
  assert (PyStr.len (cell_text v) ≤ max_list (column_lens rows i)); [|lia].
  apply max_list_elem_of_le, list_elem_of_omap.
  exists row. split; [done|]. by rewrite Hv.
Qed.

Lemma header_segments_fit columns rows :
  Forall2 (λ cell w, PyStr.len cell = w)
    (zip_with PyStr.ljust columns (imap (column_max_width rows) columns))
    (imap (column_max_width rows) columns).
Proof.
  apply Forall2_same_length_lookup_2.
  - rewrite length_zip_with, length_imap. lia.
  - intros i cell w. rewrite lookup_zip_with, list_lookup_imap.
    destruct (columns !! i) as [col|]; simpl; [|done].
    intros [= <-] [= <-]. apply len_ljust, column_max_width_name.
Qed.

Lemma row_segments_fit columns rows (row : list value) :
  row ∈ rows → length row = length columns →
  Forall2 (λ cell w, PyStr.len cell = w)
    (zip_with (λ v w, PyStr.ljust (cell_text v) w) row
       (imap (column_max_width rows) columns))
    (imap (column_max_width rows) columns).
Proof.
  intros Hrow Hlen. apply Forall2_same_length_lookup_2.
  - rewrite length_zip_with, length_imap. lia.
  - intros i cell w. rewrite lookup_zip_with, list_lookup_imap.
    destruct (row !! i) as [v|] eqn:Hv; simpl; [|done].
    destruct (columns !! i) as [col|]; simpl; [|done].
    intros [= <-] [= <-]. apply len_ljust. by eapply column_max_width_value.
Qed.

(** C6.  For rows that are not empty and hold one value per column, the
    renderer returns a table whose header line and data lines are built
    from column segments as wide as the column: the larger of the length
    of the column's name and of the longest rendered value in that column.
    Hence every data line is as long as the header line. *)
Theorem rows_to_text_aligned columns (rows : list (list value)) rc :
  rows ≠ [] →
  Forall (λ row : list value, length row = length columns) rows →
  ∃ widths header_segments row_segments,
    col_widths columns rows = Some widths
    ∧ widths = imap (column_max_width rows) columns
    ∧ header_cells widths columns = Some header_segments
    ∧ mapM (row_cells widths) rows = Some row_segments
    ∧ _rows_to_text (mkCursor (Some columns) rows rc)
      = Returned (PyStr.join NL
                    ([sep_line widths; frame header_segments; sep_line widths]
                     ++ (frame <$> row_segments)
                     ++ [sep_line widths; footer (length rows)]))
    ∧ Forall2 (λ cell w, PyStr.len cell = w) header_segments widths
    ∧ Forall (λ cells, Forall2 (λ cell w, PyStr.len cell = w) cells widths)
        row_segments
    ∧ Forall (λ cells, PyStr.len (frame cells) = PyStr.len (frame header_segments))
        row_segments.
Proof.
  intros Hne Hwf.
  set (widths := imap (column_max_width rows) columns).
  assert (Hlen : length widths = length columns)
    by (unfold widths; by rewrite length_imap).
  assert (Hsegs : Forall (λ cells, Forall2 (λ cell w, PyStr.len cell = w) cells widths)
            ((λ row, zip_with (λ v w, PyStr.ljust (cell_text v) w) row widths)
               <$> rows)).
  { apply Forall_fmap, Forall_forall. intros row Hrow. simpl.
    apply row_segments_fit; [done|].
    by apply (proj1 (Forall_forall _ _) Hwf). }
  exists widths, (zip_with PyStr.ljust columns widths),
    ((λ row, zip_with (λ v w, PyStr.ljust (cell_text v) w) row widths) <$> rows).
  split; [by apply col_widths_wf|]. split; [done|].
  split; [by apply header_cells_wf|]. split; [|split; [|split; [|split]]].
  - apply mapM_Some_2, Forall2_fmap_r, Forall_Forall2_diag.
    eapply Forall_impl; [exact Hwf|]. simpl. intros row Hrow.
    apply row_cells_wf. lia.
  - unfold _rows_to_text. simpl. destruct rows as [|row rows']; [done|].
    rewrite (render_lines_wf _ _ Hwf). fold widths.
    by rewrite <- list_fmap_compose.
  - apply header_segments_fit.
  - exact Hsegs.
  - apply Forall_forall. intros cells Hin.
    rewrite (len_frame cells widths (proj1 (Forall_forall _ _) Hsegs cells Hin)).
    pose proof (header_segments_fit columns rows) as Hh. fold widths in Hh.
    by rewrite (len_frame _ _ Hh).
Qed.

Lemma rows_to_text_aligned_witness :
  ∃ header_segments row_segments,
    col_widths ["x"; "name"] (rows World.table1) = Some [4; 6]
    ∧ header_cells [4; 6] ["x"; "name"] = Some header_segments
    ∧ mapM (row_cells [4; 6]) (rows World.table1) = Some row_segments
    ∧ Forall2 (λ cell w, PyStr.len cell = w) header_segments [4; 6]
    ∧ Forall (λ cells, Forall2 (λ cell w, PyStr.len cell = w) cells [4; 6])
        row_segments
    ∧ Forall (λ cells, PyStr.len (frame cells) = PyStr.len (frame header_segments))
        row_segments.
Proof.
  destruct (rows_to_text_aligned ["x"; "name"] (rows World.table1) (-1))
    as (widths & hs & rs & H1 & -> & H3 & H4 & _ & H6 & H7 & H8).
  - discriminate.
  - repeat constructor.
  - exists hs, rs. exact (conj H1 (conj H3 (conj H4 (conj H6 (conj H7 H8))))).
Defined.



(** * Further properties *)

(** ** The renderer: errors, frame and widths *)

Lemma col_widths_Some_inv columns (rows : list (list value)) widths :
  col_widths columns rows = Some widths →
  length widths = length columns
  ∧ Forall (λ row : list value, length columns ≤ length row) rows.
Proof.
  intros H. split.
  { apply length_mapM in H. unfold enumerate in H.
    by rewrite length_imap in H. }
  apply mapM_Some_1 in H. apply Forall_forall. intros row Hrow.
  destruct (decide (length columns = 0)) as [|Hne]; [lia|].
  assert (Hi : length columns - 1 < length columns) by lia.
  destruct (lookup_lt_is_Some_2 columns _ Hi) as [col Hcol].
  assert (Hen : enumerate columns !! (length columns - 1)
                = Some (length columns - 1, col)).
  { unfold enumerate. by rewrite list_lookup_imap, Hcol. }
  destruct (Forall2_lookup_l _ _ _ _ _ H Hen) as (w & _ & Hw).
  unfold col_width in Hw. simpl in Hw.
  destruct (mapM _ rows) as [lens|] eqn:Hlens; [|done].
  apply mapM_Some_1 in Hlens.
  apply list_elem_of_lookup in Hrow as [j Hj].
  destruct (Forall2_lookup_l _ _ _ _ _ Hlens Hj) as (n & _ & Hn).
  destruct (row !! (length columns - 1)) as [v|] eqn:Hv; [|done].
  apply lookup_lt_Some in Hv. lia.
Qed.

Lemma row_cells_Some_inv widths (row : list value) cells :
  row_cells widths row = Some cells → length row ≤ length widths.
Proof.
  intros H. apply mapM_Some_1 in H.
  destruct (decide (length row = 0)) as [|Hne]; [lia|].
  assert (Hi : length row - 1 < length row) by lia.
  destruct (lookup_lt_is_Some_2 row _ Hi) as [v Hv].
  assert (Hen : enumerate row !! (length row - 1) = Some (length row - 1, v)).
  { unfold enumerate. by rewrite list_lookup_imap, Hv. }
  destruct (Forall2_lookup_l _ _ _ _ _ H Hen) as (cell & _ & Hcell).
  simpl in Hcell.
  destruct (widths !! (length row - 1)) as [w|] eqn:Hw; [|done].
  apply lookup_lt_Some in Hw. lia.
Qed.

(** The lines exist exactly for rows that hold one value per column. *)
Lemma render_lines_Some_iff columns (rows : list (list value)) :
  is_Some (render_lines columns rows)
  ↔ Forall (λ row : list value, length row = length columns) rows.
Proof.
  split.
  - intros [lines H]. unfold render_lines in H.
    destruct (col_widths columns rows) as [widths|] eqn:Hw; [|done].
    destruct (col_widths_Some_inv _ _ _ Hw) as [Hlen Hge]. simpl in H.
    destruct (header_cells widths columns) as [hs|]; [|done]. simpl in H.
    destruct (mapM _ rows) as [ls|] eqn:Hrows; [|done].
    apply mapM_Some_1 in Hrows. apply Forall_forall. intros row Hrow.
    assert (length columns ≤ length row)
      by by apply (proj1 (Forall_forall _ _) Hge).
    apply list_elem_of_lookup in Hrow as [j Hj].
    destruct (Forall2_lookup_l _ _ _ _ _ Hrows Hj) as (line & _ & Hline).
    destruct (row_cells widths row) as [cells|] eqn:Hcells; [|done].
    apply row_cells_Some_inv in Hcells. lia.
  - intros Hwf. rewrite (render_lines_wf _ _ Hwf). eauto.
Qed.

(** X1.  The outcomes of the renderer: a cursor without column metadata is
    a [TypeError]; no rows give the text [(no rows)] whatever the columns
    are; rows that are not empty give an [IndexError] exactly when some
    row holds more or fewer values than there are columns, and a table
    otherwise. *)
Theorem rows_to_text_outcomes (cursor : Cursor) :
  (description cursor = None → _rows_to_text cursor = Raised TypeError)
  ∧ (∀ columns, description cursor = Some columns →
       (rows cursor = [] → _rows_to_text cursor = Returned "(no rows)")
       ∧ (rows cursor ≠ [] →
          (_rows_to_text cursor = Raised IndexError
           ↔ Exists (λ row : list value, length row ≠ length columns) (rows cursor))
          ∧ (Forall (λ row : list value, length row = length columns) (rows cursor)
             ↔ ∃ lines, render_lines columns (rows cursor) = Some lines
                        ∧ _rows_to_text cursor = Returned (PyStr.join NL lines)))).
Proof.
  unfold _rows_to_text. split; [by intros ->|].
  intros columns ->. split; [by intros ->|]. intros Hne.
  destruct (rows cursor) as [|row rows'] eqn:Hrows; [done|].
  pose proof (render_lines_Some_iff columns (row :: rows')) as Hiff.
  destruct (render_lines columns (row :: rows')) as [lines|]; split.
  - split; [done|]. intros Hex. apply Exists_not_Forall in Hex.
    destruct Hex. apply Hiff. eauto.
  - split; [by eauto|]. intros _. apply Hiff. eauto.
  - split; [|done]. intros _. apply not_Forall_Exists; [apply _|].
    intros Hwf. apply Hiff in Hwf. by destruct Hwf.
  - split; [|by intros (? & ? & _)]. intros Hwf. apply Hiff in Hwf.
    by destruct Hwf.
Qed.

Lemma rows_to_text_outcomes_witness :
  _rows_to_text Scenario.ragged = Raised IndexError
  ∧ _rows_to_text Scenario.updated = Raised TypeError
  ∧ _rows_to_text (mkCursor (Some ["a"; "b"]) [] 0) = Returned "(no rows)".
Proof.
  split; [|split].
  - destruct (rows_to_text_outcomes Scenario.ragged) as [_ H].
    destruct (H ["a"; "b"] eq_refl) as [_ H2].
    destruct (H2 ltac:(discriminate)) as [[_ H3] _]. apply H3.
    apply Exists_cons_tl, Exists_cons_hd. simpl. lia.
  - apply (proj1 (rows_to_text_outcomes Scenario.updated)). reflexivity.
  - destruct (rows_to_text_outcomes (mkCursor (Some ["a"; "b"]) [] 0)) as [_ H].
    destruct (H ["a"; "b"] eq_refl) as [H1 _]. apply H1. reflexivity.
Defined.

Lemma app_empty_r (s : string) : s +:+ "" = s.
Proof.
  induction s as [|c s IH]; [done|].
  change (String c s +:+ "") with (String c (s +:+ "")). by rewrite IH.
Qed.

Lemma ljust_exact (s : string) (w : nat) :
  PyStr.len s = w → PyStr.ljust s w = s.
Proof.
  intros <-. unfold PyStr.ljust. rewrite Nat.sub_diag. simpl. apply app_empty_r.
Qed.

(** X2.  The frame of a table.  For rows that are not empty and hold one
    value per column the text is [len(rows) + 5] lines joined by newlines:
    the border, the header, the border, one line per row, the border and
    the row count.  The three borders are one and the same line, as long
    as the header line; the count says [row] for one row and [rows]
    otherwise. *)
Theorem table_frame columns (rows : list (list value)) rc :
  rows ≠ [] →
  Forall (λ row : list value, length row = length columns) rows →
  let widths := imap (column_max_width rows) columns in
  let n := length rows in
  ∃ lines header,
    _rows_to_text (mkCursor (Some columns) rows rc) = Returned (PyStr.join NL lines)
    ∧ length lines = n + 5
    ∧ lines !! 0 = Some (sep_line widths)
    ∧ lines !! 1 = Some header
    ∧ lines !! 2 = Some (sep_line widths)
    ∧ lines !! (n + 3) = Some (sep_line widths)
    ∧ lines !! (n + 4) = Some (footer n)
    ∧ PyStr.len (sep_line widths) = PyStr.len header
    ∧ (n = 1 → footer n = "(1 row)")
    ∧ (n ≠ 1 → footer n = "(" +:+ pretty n +:+ " rows)").
Proof.
  intros Hne Hwf widths n.
  pose proof (render_lines_wf _ _ Hwf) as Hlines. simpl in Hlines. fold widths in Hlines.
  eexists _, (frame (zip_with PyStr.ljust columns widths)).
  split.
  { unfold _rows_to_text. simpl. destruct rows; [done|]. by rewrite Hlines. }
  split; [simpl; rewrite length_app, length_fmap; simpl; unfold n; lia|].
  do 3 (split; [done|]).
  split.
  { replace (n + 3) with (3 + n) by lia. simpl.
    rewrite lookup_app_r by (rewrite length_fmap; unfold n; lia).
    rewrite length_fmap. unfold n. by rewrite Nat.sub_diag. }
  split.
  { replace (n + 4) with (3 + (n + 1)) by lia. simpl.
    rewrite lookup_app_r by (rewrite length_fmap; unfold n; lia).
    rewrite length_fmap. unfold n.
    by replace (length rows + 1 - length rows) with 1 by lia. }
  split.
  { rewrite len_sep_line.
    pose proof (header_segments_fit columns rows) as Hh. fold widths in Hh.
    by rewrite (len_frame _ _ Hh). }
  split.
  - by intros ->.
  - intros Hn. unfold footer. by destruct (decide (n ≠ 1)).
Qed.

Lemma table_frame_witness :
  ∃ lines header,
    _rows_to_text World.table1 = Returned (PyStr.join NL lines)
    ∧ length lines = 8
    ∧ lines !! 0 = Some "+------+--------+"
    ∧ lines !! 1 = Some header
    ∧ lines !! 6 = Some "+------+--------+"
    ∧ lines !! 7 = Some "(3 rows)"
    ∧ PyStr.len header = 17.
Proof.
  destruct (table_frame ["x"; "name"] (rows World.table1) (-1))
    as (lines & header & H1 & H2 & H3 & H4 & _ & H6 & H7 & H8 & _ & H10).
  - discriminate.
  - repeat constructor.
  - exists lines, header.
    exact (conj H1 (conj H2 (conj H3 (conj H4 (conj H6 (conj H7 (eq_sym H8))))))).
Defined.

(** X3.  No column is wider than it has to be: in every column the header
    or at least one cell fills the whole width, without padding. *)
Theorem column_width_attained columns (rows : list (list value)) widths i col w :
  Forall (λ row : list value, length row = length columns) rows →
  col_widths columns rows = Some widths →
  columns !! i = Some col →
  widths !! i = Some w →
  PyStr.ljust col w = col
  ∨ ∃ row v, row ∈ rows ∧ row !! i = Some v
             ∧ PyStr.ljust (cell_text v) w = cell_text v.
Proof.
  intros Hwf Hwidths Hcol Hw.
  rewrite (col_widths_wf _ _ Hwf) in Hwidths. injection Hwidths as <-.
  rewrite list_lookup_imap, Hcol in Hw. injection Hw as <-.
  unfold column_max_width.
  destruct (decide (max_list (column_lens rows i) ≤ PyStr.len col)) as [Hle|Hgt].
  - left. apply ljust_exact. lia.
  - right.
    assert (Hne : column_lens rows i ≠ []).
    { intros Hnil. rewrite Hnil in Hgt. simpl in Hgt. lia. }
    apply max_list_elem_of in Hne.
    apply list_elem_of_omap in Hne as (row & Hrow & Hlen).
    destruct (row !! i) as [v|] eqn:Hv; [|done]. injection Hlen as Hlen.
    exists row, v. split; [done|]. split; [done|].
    apply ljust_exact. lia.
Qed.

Lemma column_width_attained_witness :
  PyStr.ljust "x" 4 = "x"
  ∨ ∃ row v, row ∈ rows World.table1 ∧ row !! 0 = Some v
             ∧ PyStr.ljust (cell_text v) 4 = cell_text v.
Proof.
  apply (column_width_attained ["x"; "name"] (rows World.table1) [4; 6] 0 "x" 4).
  - repeat constructor.
  - reflexivity.
  - reflexivity.
  - reflexivity.
Defined.

Lemma col_width_null_as_text (rows : list (list value)) i col :
  col_width ((λ row : list value, null_as_text <$> row) <$> rows) i col
  = col_width rows i col.
Proof.
  unfold col_width. f_equal. apply Forall2_mapM_ext, Forall2_fmap_l, Forall_Forall2_diag.
  apply Forall_forall. intros row _. simpl. rewrite list_lookup_fmap.
  destruct (row !! i) as [[]|]; reflexivity.
Qed.

Lemma row_cells_null_as_text widths (row : list value) :
  row_cells widths (null_as_text <$> row) = row_cells widths row.
Proof.
  unfold row_cells. apply Forall2_mapM_ext, Forall2_same_length_lookup_2.
  - unfold enumerate. by rewrite !length_imap, length_fmap.
  - intros j [j1 v1] [j2 v2]. unfold enumerate.
    rewrite !list_lookup_imap, list_lookup_fmap.
    destruct (row !! j) as [v|]; simpl; [|done].
    intros [= <- <-] [= <- <-]. simpl. by destruct v.
Qed.

(** X4.  The renderer does not tell a missing value from the text [NULL]:
    replacing every [None] of a result by the text [NULL] leaves the
    outcome unchanged, widths and errors included. *)
Theorem null_rendered_like_text (cursor : Cursor) :
  _rows_to_text (mkCursor (description cursor)
                   ((λ row : list value, null_as_text <$> row) <$> rows cursor)
                   (rowcount cursor))
  = _rows_to_text cursor.
Proof.
  unfold _rows_to_text. simpl.
  destruct (description cursor) as [columns|]; [|done].
  set (rs := rows cursor).
  set (rs' := (λ row : list value, null_as_text <$> row) <$> rs).
  assert (render_lines columns rs' = render_lines columns rs) as Heq.
  { unfold render_lines.
    assert (col_widths columns rs' = col_widths columns rs) as ->.
    { unfold col_widths. apply mapM_ext. intros [j col].
      apply col_width_null_as_text. }
    destruct (col_widths columns rs) as [widths|]; [|done]. simpl.
    destruct (header_cells widths columns) as [hs|]; [|done]. simpl.
    assert (length rs' = length rs) as -> by (unfold rs'; apply length_fmap).
    assert (mapM (λ row, frame <$> row_cells widths row) rs'
            = mapM (λ row, frame <$> row_cells widths row) rs) as ->; [|done].
    apply Forall2_mapM_ext, Forall2_fmap_l, Forall_Forall2_diag.
    apply Forall_forall. intros row _. simpl. by rewrite row_cells_null_as_text. }
  rewrite Heq. unfold rs'. by destruct rs.
Qed.

(** ** The broker: what acquisition does and does not do *)

Lemma lower_char_idem (c : ascii) :
  PyStr.lower_char (PyStr.lower_char c) = PyStr.lower_char c.
Proof. destruct c as [[] [] [] [] [] [] [] []]; reflexivity. Qed.

Lemma lower_idem (s : string) : PyStr.lower (PyStr.lower s) = PyStr.lower s.
Proof.
  induction s as [|c s IH]; [done|]. simpl. by rewrite lower_char_idem, IH.
Qed.

Section BrokerMore.

Context (environ : gmap string string).
Context (run_process : list string → outcome CompletedProcess).
Context (pyodbc_connect : string → option (list (Z * bytes)) → outcome Connection).
Context (conn_close : Connection → outcome unit).

Abbreviation acquire' := (acquire environ run_process pyodbc_connect).
Abbreviation get_connection' :=
  (get_connection environ run_process pyodbc_connect conn_close).

(** X5.  Acquisition never retries and never connects twice: it performs
    nothing at all, or the provider run alone, or the provider run and
    then one connect that carries the token attribute, or one connect
    without attributes. *)
Theorem acquire_event_shapes :
  events acquire' = []
  ∨ events acquire' = [EvRun az_command]
  ∨ (∃ cs blob,
       events acquire'
       = [EvRun az_command; EvConnect cs (Some [(ACCESS_TOKEN_ATTR, blob)])])
  ∨ (∃ cs, events acquire' = [EvConnect cs None]).
Proof.
  destruct (result (_build_conn_str environ)) as [cs|e] eqn:Hb.
  2:{ left. by rewrite (acquire_build_failed _ _ _ _ Hb). }
  rewrite (acquire_built _ _ _ _ Hb). unfold open_connection.
  destruct (decide _) as [_|_].
  - rewrite bind_unfold, get_az_token_spec.
    destruct (run_process az_command) as [cp|e1]; [|by right; left].
    destruct (decide (returncode cp = 0%Z)) as [_|_]; [|by right; left].
    simpl. destruct (encode_utf16le _) as [bs|e2]; simpl; [|by right; left].
    destruct (pack_I_s _ _ _) as [blob|e3]; simpl; [|by right; left].
    right; right; left. by exists cs, blob.
  - unfold environ_getitem.
    destruct (environ !! "AZURE_SQL_USER") as [user|]; [|by left].
    destruct (environ !! "AZURE_SQL_PASSWORD") as [password|]; [|by left].
    simpl. right; right; right. eauto.
Qed.

(** X6.  A missing setting stops [get_connection] before it touches the
    provider or the driver, and before the caller's block runs: the
    outcome is the [KeyError] of the first setting that is missing, in
    the order server, database, and, in static mode, user, password. *)
Theorem missing_setting_stops_before_io {A} (body : Connection → M A) :
  (environ !! "AZURE_SQL_SERVER" = None →
   get_connection' body = ([], Raised (KeyError "AZURE_SQL_SERVER")))
  ∧ (is_Some (environ !! "AZURE_SQL_SERVER") →
     environ !! "AZURE_SQL_DATABASE" = None →
     get_connection' body = ([], Raised (KeyError "AZURE_SQL_DATABASE")))
  ∧ (∀ cs, result (_build_conn_str environ) = Returned cs →
       PyStr.lower (environ_get environ "AZURE_SQL_AUTH" "sql") ≠ "az_cli" →
       (environ !! "AZURE_SQL_USER" = None →
        get_connection' body = ([], Raised (KeyError "AZURE_SQL_USER")))
       ∧ (is_Some (environ !! "AZURE_SQL_USER") →
          environ !! "AZURE_SQL_PASSWORD" = None →
          get_connection' body = ([], Raised (KeyError "AZURE_SQL_PASSWORD")))).
Proof.
  split; [|split].
  - intros Hs. rewrite get_connection_spec, (acquire_build_failed _ _ _ (KeyError "AZURE_SQL_SERVER")); [done|].
    unfold _build_conn_str, environ_getitem. by rewrite Hs.
  - intros [server Hs] Hd.
    rewrite get_connection_spec, (acquire_build_failed _ _ _ (KeyError "AZURE_SQL_DATABASE")); [done|].
    unfold _build_conn_str, environ_getitem. by rewrite Hs, Hd.
  - intros cs Hcs Hauth. split.
    + intros Hu. rewrite get_connection_spec, (acquire_built _ _ _ _ Hcs).
      unfold open_connection, environ_getitem.
      destruct (decide _) as [|_]; [done|]. by rewrite Hu.
    + intros [user Hu] Hp. rewrite get_connection_spec, (acquire_built _ _ _ _ Hcs).
      unfold open_connection, environ_getitem.
      destruct (decide _) as [|_]; [done|]. by rewrite Hu, Hp.
Qed.

(** X8.  When the close returns, the [with] statement ends as the
    caller's block ended: its value is returned and its error reaches the
    caller unchanged, after the close. *)
Theorem block_outcome_reaches_caller {A} (body : Connection → M A) c :
  result acquire' = Returned c →
  conn_close c = Returned tt →
  get_connection' body
  = (events acquire' ++ events (body c) ++ [EvClose c], result (body c)).
Proof.
  intros Hc Hclose. rewrite get_connection_spec.
  destruct acquire' as [pre [c'|e]]; simpl in *; [|done].
  injection Hc as ->. by rewrite Hclose.
Qed.

End BrokerMore.

Lemma missing_setting_stops_before_io_witness :
  get_connection ∅ (World.run_exit 0 "") World.connect_ok World.close_ok
    World.body_returns
  = ([], Raised (KeyError "AZURE_SQL_SERVER"))
  ∧ get_connection Scenario.env_no_database (World.run_exit 0 "") World.connect_ok
      World.close_ok World.body_returns
    = ([], Raised (KeyError "AZURE_SQL_DATABASE"))
  ∧ get_connection Scenario.env_no_user (World.run_exit 0 "") World.connect_ok
      World.close_ok World.body_returns
    = ([], Raised (KeyError "AZURE_SQL_USER"))
  ∧ get_connection World.env_no_password (World.run_exit 0 "") World.connect_ok
      World.close_ok World.body_returns
    = ([], Raised (KeyError "AZURE_SQL_PASSWORD")).
Proof.
  split; [|split; [|split]].
  - apply (proj1 (missing_setting_stops_before_io ∅ (World.run_exit 0 "")
                    World.connect_ok World.close_ok World.body_returns)).
    reflexivity.
  - apply (proj1 (proj2 (missing_setting_stops_before_io Scenario.env_no_database
                           (World.run_exit 0 "") World.connect_ok World.close_ok
                           World.body_returns))); [by eexists|reflexivity].
  - destruct (missing_setting_stops_before_io Scenario.env_no_user
                (World.run_exit 0 "") World.connect_ok World.close_ok
                World.body_returns) as (_ & _ & H).
    apply (proj1 (H World.base_conn_str eq_refl ltac:(discriminate))).
    reflexivity.
  - destruct (missing_setting_stops_before_io World.env_no_password
                (World.run_exit 0 "") World.connect_ok World.close_ok
                World.body_returns) as (_ & _ & H).
    apply (proj2 (H World.base_conn_str eq_refl ltac:(discriminate)));
      [by eexists|reflexivity].
Defined.

Lemma block_outcome_reaches_caller_witness :
  get_connection World.env_sql (World.run_exit 0 "") World.connect_ok
    World.close_ok World.body_raises
  = ([EvConnect (World.base_conn_str +:+ "UID=u;PWD=p;") None;
      EvExecute (Conn 1) "SELECT 1/0" [];
      EvClose (Conn 1)],
     Raised (PyodbcError "divide by zero")).
Proof.
  apply (block_outcome_reaches_caller World.env_sql (World.run_exit 0 "")
           World.connect_ok World.close_ok World.body_raises (Conn 1));
    reflexivity.
Defined.

(** X7.  The auth mode and the certificate-trust setting are read without
    regard to case: lowering either in the environment changes nothing
    of what acquisition does. *)
Theorem settings_case_insensitive (environ : gmap string string)
    run_process pyodbc_connect (auth trust : string) :
  acquire (<["AZURE_SQL_AUTH" := auth]> environ) run_process pyodbc_connect
  = acquire (<["AZURE_SQL_AUTH" := PyStr.lower auth]> environ)
      run_process pyodbc_connect
  ∧ acquire (<["AZURE_SQL_TRUST_CERT" := trust]> environ) run_process pyodbc_connect
    = acquire (<["AZURE_SQL_TRUST_CERT" := PyStr.lower trust]> environ)
        run_process pyodbc_connect.
Proof.
  split.
  - unfold acquire, _build_conn_str, open_connection, environ_getitem, environ_get.
    rewrite !lookup_insert_eq, !lookup_insert_ne by done. simpl.
    by rewrite lower_idem.
  - unfold acquire, _build_conn_str, open_connection, environ_getitem, environ_get.
    rewrite !lookup_insert_eq, !lookup_insert_ne by done. simpl.
    by rewrite lower_idem.
Qed.

(** ** Resources and tools: what reaches the database *)

Lemma events_bind {A B} (m : M A) (k : A → M B) :
  events (m ≫= k)
  = events m ++ match result m with
                | Returned a => events (k a)
                | Raised _ => []
                end.
Proof.
  rewrite bind_unfold. destruct m as [evs [a|e]]; simpl; [done|].
  by rewrite app_nil_r.
Qed.

Lemma result_bind {A B} (m : M A) (k : A → M B) :
  result (m ≫= k)
  = match result m with
    | Returned a => result (k a)
    | Raised e => Raised e
    end.
Proof. rewrite bind_unfold. by destruct m as [evs [a|e]]. Qed.

Lemma bind_raise_l {A B} (e : exn) (k : A → M B) : (raise e : M A) ≫= k = raise e.
Proof. by rewrite bind_unfold. Qed.

Lemma events_bind_nil {A B} (m : M A) (k : A → M B) :
  events m = [] → (∀ a, events (k a) = []) → events (m ≫= k) = [].
Proof.
  intros Hm Hk. rewrite events_bind, Hm. destruct (result m); [apply Hk|done].
Qed.

(** Settle the tests on the tool name. *)
Ltac pick_branch :=
  unfold call_tool_branch;
  repeat match goal with
    | |- context [decide (?a = ?b)] =>
        destruct (decide (a = b)) as [?|?]; [try discriminate|try congruence]
    end.

(** Membership in a list that is written out. *)
Ltac in_list := apply list_elem_of_In; simpl; tauto.

(** Computations that only compute: no event. *)
Ltac no_events :=
  repeat match goal with
    | |- events (_ ≫= _) = [] => apply events_bind_nil; [|intros ?]
    | |- events (match ?x with _ => _ end) = [] => destruct x
    | |- events (if ?x then _ else _) = [] => destruct x
    end;
  try reflexivity.

Section ToolFacts.

Context (environ : gmap string string).
Context (run_process : list string → outcome CompletedProcess).
Context (pyodbc_connect : string → option (list (Z * bytes)) → outcome Connection).
Context (conn_close : Connection → outcome unit).
Context (cursor_execute : Connection → string → list string → outcome Cursor).
Context (int_of_str : string → outcome Z).

Abbreviation acquire' := (acquire environ run_process pyodbc_connect).
Abbreviation execute' := (execute cursor_execute).
Abbreviation read_resource' :=
  (read_resource environ run_process pyodbc_connect conn_close cursor_execute).
Abbreviation call_tool' :=
  (call_tool environ run_process pyodbc_connect conn_close cursor_execute int_of_str).

Lemma events_execute_then {B} conn sql params (k : Cursor → M B) :
  (∀ cursor, events (k cursor) = []) →
  events (execute' conn sql params ≫= k) = [EvExecute conn sql params].
Proof.
  intros Hk. rewrite events_bind.
  assert (execute' conn sql params
          = ([EvExecute conn sql params], cursor_execute conn sql params)) as ->.
  { unfold execute, emit, from_outcome. rewrite bind_unfold. simpl.
    by destruct (cursor_execute conn sql params). }
  simpl. destruct (cursor_execute conn sql params) as [cursor|e]; [|done].
  by rewrite Hk.
Qed.

Lemma result_execute_then {B} conn sql params (k : Cursor → M B) :
  result (execute' conn sql params ≫= k)
  = match cursor_execute conn sql params with
    | Returned cursor => result (k cursor)
    | Raised e => Raised e
    end.
Proof.
  rewrite result_bind.
  assert (execute' conn sql params
          = ([EvExecute conn sql params], cursor_execute conn sql params)) as ->.
  { unfold execute, emit, from_outcome. rewrite bind_unfold. simpl.
    by destruct (cursor_execute conn sql params). }
  done.
Qed.

(** The events of the five branches. *)
Lemma tool_list_schemas_events conn :
  events (tool_list_schemas cursor_execute conn)
  = [EvExecute conn SQL_LIST_SCHEMAS []].
Proof. apply events_execute_then. intros cursor. no_events. Qed.

Lemma tool_list_tables_events conn (arguments : gmap string arg) :
  events (tool_list_tables cursor_execute conn arguments)
  = [EvExecute conn
       (match arguments !! "schema" with
        | Some a => if arg_truthy a then SQL_TABLES_OF_SCHEMA else SQL_ALL_TABLES
        | None => SQL_ALL_TABLES
        end)
       (match arguments !! "schema" with
        | Some a => if arg_truthy a then [format_arg a] else []
        | None => []
        end)].
Proof.
  unfold tool_list_tables.
  destruct (arguments !! "schema") as [a|]; [destruct (arg_truthy a)|];
    (apply events_execute_then; intros cursor; no_events).
Qed.

Lemma tool_describe_table_events conn (arguments : gmap string arg) :
  events (tool_describe_table cursor_execute conn arguments)
  = match arguments !! "schema", arguments !! "table" with
    | Some schema, Some table =>
        [EvExecute conn SQL_DESCRIBE_TABLE
           [format_arg schema; format_arg table; format_arg schema; format_arg table]]
    | _, _ => []
    end.
Proof.
  unfold tool_describe_table, arguments_getitem.
  destruct (arguments !! "schema") as [schema|]; [|done].
  destruct (arguments !! "table") as [table|]; [|done].
  rewrite !bind_ret_l.
  apply events_execute_then. intros cursor. no_events.
Qed.

Lemma tool_sample_table_events conn (arguments : gmap string arg) :
  events (tool_sample_table cursor_execute int_of_str conn arguments)
  = match arguments !! "schema", arguments !! "table",
          sample_rows int_of_str arguments with
    | Some schema, Some table, Returned n =>
        [EvExecute conn
           (select_top (pretty n) (format_arg schema) (format_arg table)) []]
    | _, _, _ => []
    end.
Proof.
  unfold tool_sample_table, arguments_getitem.
  destruct (arguments !! "schema") as [schema|]; [|done].
  destruct (arguments !! "table") as [table|]; [|done].
  destruct (sample_rows int_of_str arguments) as [n|e]; [|done].
  rewrite !bind_ret_l. change (from_outcome (Returned n)) with (mret n : M Z).
  rewrite bind_ret_l.
  apply events_execute_then. intros cursor. no_events.
Qed.

Lemma tool_execute_query_events conn (arguments : gmap string arg) :
  events (tool_execute_query cursor_execute conn arguments)
  = match arguments !! "sql" with
    | Some (AStr text) => [EvExecute conn text []]
    | _ => []
    end.
Proof.
  unfold tool_execute_query, arguments_getitem.
  destruct (arguments !! "sql") as [[z|text]|]; [done| |done].
  rewrite bind_ret_l.
  apply events_execute_then. intros cursor. no_events.
Qed.

Abbreviation branch' := (call_tool_branch cursor_execute int_of_str).

Lemma call_tool_spec name (arguments : gmap string arg) :
  call_tool' name arguments
  = match acquire' with
    | (pre, Returned c) =>
        (pre ++ events (branch' name c arguments) ++ [EvClose c],
         match conn_close c with
         | Returned _ =>
             match result (branch' name c arguments) with
             | Returned output => Returned [output]
             | Raised e => Raised e
             end
         | Raised e => Raised e
         end)
    | (pre, Raised e) => (pre, Raised e)
    end.
Proof.
  unfold call_tool. rewrite get_connection_spec.
  destruct acquire' as [pre [c|e]]; [|done].
  rewrite events_bind, result_bind.
  destruct (result (branch' name c arguments)); simpl; by rewrite ?app_nil_r.
Qed.

Lemma branch_events_cases name conn (arguments : gmap string arg) :
  events (branch' name conn arguments) = []
  ∨ ∃ sql params, events (branch' name conn arguments) = [EvExecute conn sql params].
Proof.
  unfold call_tool_branch.
  repeat (destruct (decide _) as [_|_]).
  - right. rewrite tool_list_schemas_events. eauto.
  - right. rewrite tool_list_tables_events. eauto.
  - rewrite tool_describe_table_events.
    destruct (arguments !! "schema"), (arguments !! "table"); eauto.
  - rewrite tool_sample_table_events.
    destruct (arguments !! "schema"), (arguments !! "table"),
      (sample_rows int_of_str arguments); eauto.
  - rewrite tool_execute_query_events.
    destruct (arguments !! "sql") as [[|]|]; eauto.
  - by left.
Qed.

(** The [sample_table] branch of [call_tool] is the tool as modelled on
    its own. *)
Lemma call_tool_sample_table_agrees (arguments : gmap string arg) :
  call_tool' "sample_table" arguments
  = call_tool_sample_table environ run_process pyodbc_connect conn_close
      cursor_execute int_of_str arguments.
Proof.
  unfold call_tool, call_tool_sample_table. rewrite !get_connection_spec.
  destruct acquire' as [pre [c|e]]; [|done].
  assert ((output ← branch' "sample_table" c arguments; mret [output])
          = (schema ← arguments_getitem arguments "schema";
             table ← arguments_getitem arguments "table";
             n ← from_outcome (sample_rows int_of_str arguments);
             cursor ← execute' c
               (select_top (pretty n) (format_arg schema) (format_arg table)) [];
             output ← from_outcome (_rows_to_text cursor);
             mret [output])) as ->; [|done].
  unfold call_tool_branch, tool_sample_table, arguments_getitem. simpl.
  destruct (arguments !! "schema") as [schema|]; [|done].
  destruct (arguments !! "table") as [table|]; [|done].
  destruct (sample_rows int_of_str arguments) as [n|e]; [|done].
  unfold execute, emit, from_outcome, mbind, M_bind, bind, mret, M_ret, ret. simpl.
  destruct (cursor_execute c _ []) as [cursor|e]; simpl; [|done].
  by destruct (_rows_to_text cursor).
Qed.

(** X9.  Every tool call, for any name and any arguments, sends at most
    one statement to the database, on the connection it acquired, and
    closes that connection as its last step.  When acquisition fails its
    error is the outcome, whatever the tool name is. *)
Theorem call_tool_one_statement_then_close name (arguments : gmap string arg) :
  (∀ c, result acquire' = Returned c →
     ∃ statements,
       events (call_tool' name arguments)
       = events acquire' ++ statements ++ [EvClose c]
       ∧ (statements = [] ∨ ∃ sql params, statements = [EvExecute c sql params]))
  ∧ (∀ e, result acquire' = Raised e →
       call_tool' name arguments = (events acquire', Raised e)).
Proof.
  rewrite call_tool_spec. split.
  - intros c Hc. destruct acquire' as [pre [c'|e]]; simpl in *; [|done].
    injection Hc as ->. exists (events (branch' name c arguments)).
    split; [done|]. apply branch_events_cases.
  - intros e He. destruct acquire' as [pre [c'|e']]; simpl in *; [done|].
    by injection He as ->.
Qed.

(** X10.  A tool name that is not in the catalogue is refused with a
    [ValueError], but only after a connection was opened; nothing is sent
    on it and it is closed. *)
Theorem call_tool_unknown_tool name (arguments : gmap string arg) c :
  name ∉ (t_name <$> list_tools) →
  result acquire' = Returned c →
  events (call_tool' name arguments) = events acquire' ++ [EvClose c]
  ∧ (conn_close c = Returned tt →
     result (call_tool' name arguments)
     = Raised (ValueError ("Unknown tool: " +:+ name))).
Proof.
  intros Hname Hc. rewrite call_tool_spec.
  destruct acquire' as [pre [c'|e]]; simpl in *; [|done].
  injection Hc as ->.
  assert (branch' name c arguments = raise (ValueError ("Unknown tool: " +:+ name)))
    as ->.
  { unfold call_tool_branch.
    repeat (destruct (decide _) as [->|_];
            [exfalso; apply Hname; set_solver|]).
    done. }
  simpl. split; [done|]. by intros ->.
Qed.

(** X11.  Every tool of the catalogue, called with arguments that fit its
    input schema, sends exactly one statement to the database. *)
Theorem advertised_tool_sends_one_statement tool (arguments : gmap string arg) c :
  tool ∈ list_tools →
  validates tool arguments = true →
  result acquire' = Returned c →
  ∃ sql params,
    events (call_tool' (t_name tool) arguments)
    = events acquire' ++ [EvExecute c sql params; EvClose c].
Proof.
  intros Htool Hvalid Hc. rewrite call_tool_spec.
  destruct acquire' as [pre [c'|e]]; simpl in *; [|done].
  injection Hc as ->.
  assert (∃ sql params,
            events (branch' (t_name tool) c arguments) = [EvExecute c sql params])
    as (sql & params & ->); [|by eauto].
  apply list_elem_of_In in Htool. simpl in Htool.
  destruct Htool as [<-|[<-|[<-|[<-|[<-|[]]]]]]; simpl; pick_branch.
  - rewrite tool_list_schemas_events. eauto.
  - rewrite tool_list_tables_events. eauto.
  - rewrite tool_describe_table_events. unfold validates in Hvalid. simpl in Hvalid.
    destruct (arguments !! "schema") as [schema|]; [|done].
    destruct (arguments !! "table") as [table|]; [|done]. eauto.
  - rewrite tool_sample_table_events. unfold validates, sample_rows in *.
    simpl in Hvalid.
    destruct (arguments !! "schema") as [schema|]; [|done].
    destruct (arguments !! "table") as [table|]; [|by destruct schema].
    destruct (arguments !! "rows") as [[r|r]|]; simpl in *; eauto.
    by destruct schema, table.
  - rewrite tool_execute_query_events. unfold validates in Hvalid. simpl in Hvalid.
    destruct (arguments !! "sql") as [[z|text]|]; [done| |done]. eauto.
Qed.

(** X12.  A call that lacks an argument its tool requires sends nothing to
    the database: the connection is opened and closed, and the outcome is
    the [KeyError] of a required argument that is missing. *)
Theorem missing_required_argument tool (arguments : gmap string arg) key c :
  tool ∈ list_tools →
  key ∈ t_required tool →
  arguments !! key = None →
  result acquire' = Returned c →
  events (call_tool' (t_name tool) arguments) = events acquire' ++ [EvClose c]
  ∧ (conn_close c = Returned tt →
     ∃ missing, missing ∈ t_required tool ∧ arguments !! missing = None
                ∧ result (call_tool' (t_name tool) arguments)
                  = Raised (KeyError missing)).
Proof.
  intros Htool Hkey Hnone Hc. rewrite call_tool_spec.
  destruct acquire' as [pre [c'|e]]; simpl in *; [|done].
  injection Hc as ->.
  assert (∃ missing, missing ∈ t_required tool ∧ arguments !! missing = None
                     ∧ branch' (t_name tool) c arguments = raise (KeyError missing))
    as (missing & Hin & Hmiss & ->).
  2:{ simpl. split; [done|]. intros ->. eauto. }
  apply list_elem_of_In in Htool. simpl in Htool.
  destruct Htool as [<-|[<-|[<-|[<-|[<-|[]]]]]]; simpl in *;
    try (by apply elem_of_nil in Hkey); pick_branch.
  - unfold tool_describe_table, arguments_getitem.
    destruct (arguments !! "schema") as [schema|] eqn:Hs.
    + destruct (arguments !! "table") as [table|] eqn:Ht.
      * apply list_elem_of_In in Hkey. simpl in Hkey.
        destruct Hkey as [<-|[<-|[]]]; congruence.
      * exists "table". rewrite bind_ret_l, bind_raise_l.
        split; [in_list|done].
    + exists "schema". rewrite bind_raise_l. split; [in_list|done].
  - unfold tool_sample_table, arguments_getitem.
    destruct (arguments !! "schema") as [schema|] eqn:Hs.
    + destruct (arguments !! "table") as [table|] eqn:Ht.
      * apply list_elem_of_In in Hkey. simpl in Hkey.
        destruct Hkey as [<-|[<-|[]]]; congruence.
      * exists "table". rewrite bind_ret_l, bind_raise_l.
        split; [in_list|done].
    + exists "schema". rewrite bind_raise_l. split; [in_list|done].
  - unfold tool_execute_query, arguments_getitem.
    apply list_elem_of_In in Hkey. simpl in Hkey. destruct Hkey as [<-|[]].
    rewrite Hnone. exists "sql". rewrite bind_raise_l. split; [in_list|done].
Qed.

(** X13.  [execute_query] hands the text of its [sql] argument to the
    driver as it is, without parameters.  A result without column
    metadata is reported as [<rowcount> row(s) affected], with the count
    the driver reports; a result with columns goes through the
    renderer. *)
Theorem execute_query_outcomes (arguments : gmap string arg) text c cursor :
  arguments !! "sql" = Some (AStr text) →
  result acquire' = Returned c →
  cursor_execute c text [] = Returned cursor →
  conn_close c = Returned tt →
  events (call_tool' "execute_query" arguments)
  = events acquire' ++ [EvExecute c text []; EvClose c]
  ∧ (description cursor = None →
     result (call_tool' "execute_query" arguments)
     = Returned [pretty (rowcount cursor) +:+ " row(s) affected"])
  ∧ (∀ column columns, description cursor = Some (column :: columns) →
       result (call_tool' "execute_query" arguments)
       = match _rows_to_text cursor with
         | Returned table => Returned [table]
         | Raised e => Raised e
         end).
Proof.
  intros Hsql Hc Hexec Hclose. rewrite call_tool_spec.
  destruct acquire' as [pre [c'|e]]; simpl in *; [|done].
  injection Hc as ->. rewrite Hclose.
  assert (Hb : branch' "execute_query" c arguments
               = tool_execute_query cursor_execute c arguments) by (by pick_branch).
  rewrite Hb, tool_execute_query_events, Hsql. split; [done|].
  unfold tool_execute_query, arguments_getitem. rewrite Hsql, bind_ret_l.
  rewrite result_execute_then, Hexec. unfold description_truthy.
  split.
  - by intros ->.
  - intros column columns ->. simpl. by destruct (_rows_to_text cursor).
Qed.

Lemma acquire_never_executes :
  Forall (λ ev, is_execute ev = false) (events acquire').
Proof.
  destruct (result (_build_conn_str environ)) as [cs|e] eqn:Hb.
  - rewrite (acquire_built _ _ _ _ Hb).
    unfold open_connection, _get_az_token, subprocess_run_check, connect,
      environ_getitem.
    events_Forall.
  - rewrite (acquire_build_failed _ _ _ _ Hb). constructor.
Qed.

Lemma branch_constant_statement name (arguments : gmap string arg) conn sql params :
  name ∈ ["list_schemas"; "list_tables"; "describe_table"] →
  EvExecute conn sql params ∈ events (branch' name conn arguments) →
  sql ∈ [SQL_LIST_SCHEMAS; SQL_TABLES_OF_SCHEMA; SQL_ALL_TABLES; SQL_DESCRIBE_TABLE]
  ∧ Forall (λ p, ∃ key a, arguments !! key = Some a ∧ p = format_arg a) params.
Proof.
  intros Hname. apply list_elem_of_In in Hname. simpl in Hname.
  destruct Hname as [<-|[<-|[<-|[]]]]; pick_branch.
  - rewrite tool_list_schemas_events. intros [= -> ->]%list_elem_of_singleton.
    split; [in_list|constructor].
  - rewrite tool_list_tables_events. intros [= -> ->]%list_elem_of_singleton.
    destruct (arguments !! "schema") as [a|] eqn:Ha;
      [destruct (arg_truthy a)|]; (split; [in_list|]); repeat constructor.
    eauto.
  - rewrite tool_describe_table_events.
    destruct (arguments !! "schema") as [schema|] eqn:Hs;
      [|by intros ?%elem_of_nil].
    destruct (arguments !! "table") as [table|] eqn:Ht;
      [|by intros ?%elem_of_nil].
    intros [= -> ->]%list_elem_of_singleton.
    split; [in_list|]. repeat constructor; eauto.
Qed.

(** X14.  The tools [list_schemas], [list_tables] and [describe_table]
    never write an argument into the text of a statement: whatever the
    arguments are, the text they send is one of four constants, and each
    parameter is the text of an argument. *)
Theorem catalogue_statements_are_constant name (arguments : gmap string arg)
    conn sql params :
  name ∈ ["list_schemas"; "list_tables"; "describe_table"] →
  EvExecute conn sql params ∈ events (call_tool' name arguments) →
  sql ∈ [SQL_LIST_SCHEMAS; SQL_TABLES_OF_SCHEMA; SQL_ALL_TABLES; SQL_DESCRIBE_TABLE]
  ∧ Forall (λ p, ∃ key a, arguments !! key = Some a ∧ p = format_arg a) params.
Proof.
  intros Hname. rewrite call_tool_spec.
  pose proof acquire_never_executes as Hacq.
  destruct acquire' as [pre [c|e]]; simpl in *.
  - rewrite !elem_of_app. intros [Hin|[Hin|Hin]].
    + by apply (proj1 (Forall_forall _ _) Hacq) in Hin.
    + apply list_elem_of_lookup in Hin as [j Hj].
      destruct (branch_events_cases name c arguments) as [Hnil|(sql' & ps' & Hone)].
      * by rewrite Hnil in Hj.
      * rewrite Hone in Hj. destruct j as [|j]; [|by destruct j].
        injection Hj as [= <- <- <-].
        apply (branch_constant_statement name arguments c); [done|].
        rewrite Hone. by left.
    + by apply list_elem_of_singleton in Hin.
  - intros Hin. by apply (proj1 (Forall_forall _ _) Hacq) in Hin.
Qed.

(** X15.  [list_tables] treats an empty [schema] argument like an absent
    one: it lists the tables of all schemas. *)
Theorem list_tables_empty_schema (arguments : gmap string arg) a :
  arguments !! "schema" = Some a →
  arg_truthy a = false →
  call_tool' "list_tables" arguments
  = call_tool' "list_tables" (delete "schema" arguments)
  ∧ ∀ conn, events (branch' "list_tables" conn arguments)
            = [EvExecute conn SQL_ALL_TABLES []].
Proof.
  intros Ha Hfalsy.
  assert (∀ conn, branch' "list_tables" conn arguments
                  = branch' "list_tables" conn (delete "schema" arguments)) as Hb.
  { intros conn. pick_branch. unfold tool_list_tables.
    by rewrite lookup_delete_eq, Ha, Hfalsy. }
  split.
  - rewrite !call_tool_spec. destruct acquire' as [pre [c|e]]; [|done].
    by rewrite Hb.
  - intros conn. pick_branch. by rewrite tool_list_tables_events, Ha, Hfalsy.
Qed.

(** X16.  A resource URI without a dot after the scheme is refused before
    anything is acquired: no provider run, no connect, no statement. *)
Theorem read_resource_rejects_before_connecting uri :
  PyStr.contains_char "." (PyStr.replace uri "mssql://" "") = false →
  read_resource' uri = ([], Raised (ValueError ("Invalid resource URI: " +:+ uri))).
Proof.
  intros Hnone. unfold read_resource.
  assert (resource_parts uri = Raised (ValueError ("Invalid resource URI: " +:+ uri)))
    as ->; [|done].
  unfold resource_parts. by rewrite (split1_none _ _ Hnone).
Qed.

End ToolFacts.

Section ResourceFacts.

Context (environ : gmap string string).
Context (run_process : list string → outcome CompletedProcess).
Context (pyodbc_connect : string → option (list (Z * bytes)) → outcome Connection).
Context (conn_close : Connection → outcome unit).
Context (cursor_execute : Connection → string → list string → outcome Cursor).
Context (any_url : string → outcome string).

Abbreviation acquire' := (acquire environ run_process pyodbc_connect).
Abbreviation list_resources' :=
  (list_resources environ run_process pyodbc_connect conn_close cursor_execute
     any_url).

Lemma mapM_outcome_Returned {A B} (f : A → outcome B) (l : list A) (k : list B) :
  mapM_outcome f l = Returned k ↔ Forall2 (λ x y, f x = Returned y) l k.
Proof.
  revert k. induction l as [|x l IH]; intros k; simpl.
  - split; [by intros [= <-]; constructor|by intros ->%Forall2_nil_inv_l].
  - destruct (f x) as [y|e] eqn:Hx.
    + destruct (mapM_outcome f l) as [ys|e] eqn:Hl.
      * split.
        -- intros [= <-]. constructor; [done|by apply IH].
        -- intros (y' & k' & Hy & Hk & ->)%Forall2_cons_inv_l.
           apply IH in Hk. congruence.
      * split; [done|].
        intros (y' & k' & Hy & Hk & ->)%Forall2_cons_inv_l.
        apply IH in Hk. done.
    + split; [done|].
      intros (y' & k' & Hy & Hk & ->)%Forall2_cons_inv_l. congruence.
Qed.

Lemma mapM_outcome_Raised {A B} (f : A → outcome B) (skipped : list A) x rest e :
  Forall (λ x, ∃ y, f x = Returned y) skipped →
  f x = Raised e →
  mapM_outcome f (skipped ++ x :: rest) = Raised e.
Proof.
  intros Hsk Hx. induction Hsk as [|x' skipped [y Hy] _ IH]; simpl.
  - by rewrite Hx.
  - by rewrite Hy, IH.
Qed.

Abbreviation resource_of_row' := (resource_of_row any_url).

(** X18.  [list_resources] sends one statement and builds one resource
    per row the driver returns, in the driver's order: named
    [schema.table], described as [Table schema.table], of type
    [text/plain], and with the URL that the check of
    [mssql://schema.table] stores.  The first row that cannot be turned
    into a resource ends the call with its error: an [IndexError] for a
    row with fewer than two values, the error of the URL check for a
    name it refuses. *)
Theorem list_resources_outcomes c cursor columns :
  result acquire' = Returned c →
  cursor_execute c SQL_LIST_RESOURCES [] = Returned cursor →
  description cursor = Some columns →
  conn_close c = Returned tt →
  events list_resources'
  = events acquire' ++ [EvExecute c SQL_LIST_RESOURCES []; EvClose c]
  ∧ (∀ resources,
       result list_resources' = Returned resources
       ↔ Forall2 (λ (row : list value) r,
                    ∃ schema table,
                      row !! 0 = Some schema ∧ row !! 1 = Some table
                      ∧ r_name r = py_str schema +:+ "." +:+ py_str table
                      ∧ any_url ("mssql://" +:+ r_name r) = Returned (r_uri r)
                      ∧ r_description r = "Table " +:+ r_name r
                      ∧ r_mimeType r = "text/plain")
           (rows cursor) resources)
  ∧ (∀ skipped row rest e,
       rows cursor = skipped ++ row :: rest →
       Forall (λ row, ∃ r, resource_of_row' row = Returned r) skipped →
       resource_of_row' row = Raised e →
       result list_resources' = Raised e)
  ∧ (∀ row : list value, length row < 2 → resource_of_row' row = Raised IndexError)
  ∧ (∀ (row : list value) schema table e,
       row !! 0 = Some schema → row !! 1 = Some table →
       any_url ("mssql://" +:+ py_str schema +:+ "." +:+ py_str table) = Raised e →
       resource_of_row' row = Raised e).
Proof.
  intros Hc Hexec Hdesc Hclose. unfold list_resources.
  rewrite get_connection_spec.
  destruct acquire' as [pre [c'|e]]; simpl in Hc; [|done].
  injection Hc as ->. rewrite Hclose.
  rewrite events_execute_then by (intros ?; no_events).
  rewrite result_execute_then, Hexec.
  unfold fetchall. rewrite Hdesc.
  change (from_outcome (Returned (rows cursor))) with (mret (rows cursor) : M _).
  rewrite bind_ret_l. simpl.
  split; [done|]. split; [|split; [|split]].
  - intros resources. rewrite mapM_outcome_Returned.
    split; intros HF; (eapply Forall2_impl; [exact HF|]); clear HF; intros row r.
    + unfold resource_of_row, qualified_name.
      destruct (row !! 0) as [schema|]; [|done].
      destruct (row !! 1) as [table|]; [|done]. simpl.
      destruct (any_url _) as [uri|e] eqn:Hurl; [|done].
      intros [= <-]. by exists schema, table.
    + intros (schema & table & H0 & H1 & Hname & Hurl & Hd & Hm).
      unfold resource_of_row, qualified_name. rewrite H0, H1. simpl.
      rewrite <- Hname, Hurl. destruct r; simpl in *. congruence.
  - intros skipped row rest e Hrows Hsk Hrow. rewrite Hrows.
    by rewrite (mapM_outcome_Raised _ _ _ _ _ Hsk Hrow).
  - intros row Hlen. unfold resource_of_row, qualified_name.
    destruct row as [|schema [|table row]]; simpl in *; [done|done|lia].
  - intros row schema table e H0 H1 Hurl.
    unfold resource_of_row, qualified_name. rewrite H0, H1. simpl.
    by rewrite Hurl.
Qed.

End ResourceFacts.

(** X17.  When the URL check stores the text [mssql://schema.table] as
    it is, the URL of a resource of [list_resources] parses back, in
    [read_resource], to the schema and the table it was built from if the
    schema name holds no dot and the name holds no [mssql://]; for a
    schema name with a dot it parses to something else. *)
Theorem resource_uri_round_trip any_url (row : list value) r schema table :
  resource_of_row any_url row = Returned r →
  row !! 0 = Some schema →
  row !! 1 = Some table →
  r_uri r = "mssql://" +:+ r_name r →
  (PyStr.contains_char "." (py_str schema) = false →
   PyStr.contains "mssql://" (r_name r) = false →
   resource_parts (r_uri r) = Returned (py_str schema, py_str table))
  ∧ (PyStr.contains_char "." (py_str schema) = true →
     resource_parts (r_uri r) ≠ Returned (py_str schema, py_str table)).
Proof.
  unfold resource_of_row, qualified_name. intros Hr Hs Ht.
  rewrite Hs, Ht in Hr. simpl in Hr.
  destruct (any_url _) as [uri|e]; [|done]. injection Hr as <-. simpl.
  intros ->.
  set (full := py_str schema +:+ "." +:+ py_str table).
  split.
  - intros Hdot Habsent. unfold resource_parts.
    change (PyStr.replace ("mssql://" +:+ full) "mssql://" "")
      with (PyStr.replace full "mssql://" "").
    rewrite (replace_absent _ _ _ Habsent). unfold full.
    change ("." +:+ py_str table) with (String "." (py_str table)).
    by rewrite (split1_first _ _ _ Hdot).
  - intros Hdot Hparts. unfold resource_parts in Hparts.
    destruct (decide _) as [|_]; [done|].
    destruct (PyStr.split1 "." _) as [|a [|b [|]]] eqn:E; try done.
    injection Hparts as -> ->. apply split1_inv in E as [_ Hno]. congruence.
Qed.

Lemma resource_uri_round_trip_witness :
  resource_parts "mssql://dbo.Customers" = Returned ("dbo", "Customers")
  ∧ resource_parts "mssql://my.schema.t" ≠ Returned ("my.schema", "t").
Proof.
  split.
  - apply (proj1 (resource_uri_round_trip Scenario.url_check
                    [VStr "dbo"; VStr "Customers"]
                    (mkResource "mssql://dbo.Customers" "dbo.Customers"
                       "Table dbo.Customers" "text/plain")
                    (VStr "dbo") (VStr "Customers")
                    eq_refl eq_refl eq_refl eq_refl));
      reflexivity.
  - apply (proj2 (resource_uri_round_trip Scenario.url_check
                    [VStr "my.schema"; VStr "t"]
                    (mkResource "mssql://my.schema.t" "my.schema.t"
                       "Table my.schema.t" "text/plain")
                    (VStr "my.schema") (VStr "t")
                    eq_refl eq_refl eq_refl eq_refl)).
    reflexivity.
Defined.

(** *** The tools, run *)

Lemma call_tool_one_statement_then_close_witness :
  (∃ statements,
     events (call_tool World.env_sql (World.run_exit 0 "") World.connect_ok
               World.close_ok Scenario.execute_update World.int_of_str_fails
               "execute_query" Scenario.args_update)
     = [EvConnect (World.base_conn_str +:+ "UID=u;PWD=p;") None]
       ++ statements ++ [EvClose (Conn 1)]
     ∧ (statements = []
        ∨ ∃ sql params, statements = [EvExecute (Conn 1) sql params]))
  ∧ call_tool World.env_no_password (World.run_exit 0 "") World.connect_ok
      World.close_ok Scenario.execute_update World.int_of_str_fails
      "execute_query" Scenario.args_update
    = ([], Raised (KeyError "AZURE_SQL_PASSWORD")).
Proof.
  split.
  - apply (proj1 (call_tool_one_statement_then_close World.env_sql
                    (World.run_exit 0 "") World.connect_ok World.close_ok
                    Scenario.execute_update World.int_of_str_fails
                    "execute_query" Scenario.args_update) (Conn 1)).
    reflexivity.
  - apply (proj2 (call_tool_one_statement_then_close World.env_no_password
                    (World.run_exit 0 "") World.connect_ok World.close_ok
                    Scenario.execute_update World.int_of_str_fails
                    "execute_query" Scenario.args_update)
             (KeyError "AZURE_SQL_PASSWORD")).
    reflexivity.
Defined.

Lemma call_tool_unknown_tool_witness :
  events (call_tool World.env_sql (World.run_exit 0 "") World.connect_ok
            World.close_ok Scenario.execute_update World.int_of_str_fails
            "drop_table" Scenario.args_describe)
  = [EvConnect (World.base_conn_str +:+ "UID=u;PWD=p;") None; EvClose (Conn 1)]
  ∧ result (call_tool World.env_sql (World.run_exit 0 "") World.connect_ok
              World.close_ok Scenario.execute_update World.int_of_str_fails
              "drop_table" Scenario.args_describe)
    = Raised (ValueError "Unknown tool: drop_table").
Proof.
  destruct (call_tool_unknown_tool World.env_sql (World.run_exit 0 "")
              World.connect_ok World.close_ok Scenario.execute_update
              World.int_of_str_fails "drop_table" Scenario.args_describe (Conn 1))
    as [H1 H2].
  - intros H. apply list_elem_of_In in H. simpl in H. intuition discriminate.
  - reflexivity.
  - split; [exact H1|]. apply H2. reflexivity.
Defined.

Lemma advertised_tool_sends_one_statement_witness :
  ∃ sql params,
    events (call_tool World.env_sql (World.run_exit 0 "") World.connect_ok
              World.close_ok World.execute_table1 World.int_of_str_fails
              "describe_table" Scenario.args_describe)
    = [EvConnect (World.base_conn_str +:+ "UID=u;PWD=p;") None;
       EvExecute (Conn 1) sql params; EvClose (Conn 1)].
Proof.
  apply (advertised_tool_sends_one_statement World.env_sql (World.run_exit 0 "")
           World.connect_ok World.close_ok World.execute_table1
           World.int_of_str_fails Scenario.tool_describe Scenario.args_describe
           (Conn 1)).
  - apply list_elem_of_In. simpl. tauto.
  - reflexivity.
  - reflexivity.
Defined.

Lemma missing_required_argument_witness :
  events (call_tool World.env_sql (World.run_exit 0 "") World.connect_ok
            World.close_ok World.execute_table1 World.int_of_str_fails
            "describe_table" Scenario.args_no_table)
  = [EvConnect (World.base_conn_str +:+ "UID=u;PWD=p;") None; EvClose (Conn 1)]
  ∧ ∃ missing,
      missing ∈ ["schema"; "table"]
      ∧ Scenario.args_no_table !! missing = None
      ∧ result (call_tool World.env_sql (World.run_exit 0 "") World.connect_ok
                  World.close_ok World.execute_table1 World.int_of_str_fails
                  "describe_table" Scenario.args_no_table)
        = Raised (KeyError missing).
Proof.
  destruct (missing_required_argument World.env_sql (World.run_exit 0 "")
              World.connect_ok World.close_ok World.execute_table1
              World.int_of_str_fails Scenario.tool_describe Scenario.args_no_table
              "table" (Conn 1)) as [H1 H2].
  - apply list_elem_of_In. simpl. tauto.
  - apply list_elem_of_In. simpl. tauto.
  - reflexivity.
  - reflexivity.
  - split; [exact H1|]. apply H2. reflexivity.
Defined.

Lemma execute_query_outcomes_witness :
  call_tool World.env_sql (World.run_exit 0 "") World.connect_ok World.close_ok
    Scenario.execute_update World.int_of_str_fails "execute_query"
    Scenario.args_update
  = ([EvConnect (World.base_conn_str +:+ "UID=u;PWD=p;") None;
      EvExecute (Conn 1) "UPDATE t SET x = 1" [];
      EvClose (Conn 1)],
     Returned ["3 row(s) affected"]).
Proof.
  destruct (execute_query_outcomes World.env_sql (World.run_exit 0 "")
              World.connect_ok World.close_ok Scenario.execute_update
              World.int_of_str_fails Scenario.args_update "UPDATE t SET x = 1"
              (Conn 1) Scenario.updated eq_refl eq_refl eq_refl eq_refl)
    as (H1 & H2 & _).
  rewrite (M_eta (call_tool _ _ _ _ _ _ _ _)), H1, (H2 eq_refl). reflexivity.
Defined.

Lemma catalogue_statements_are_constant_witness :
  SQL_DESCRIBE_TABLE
  ∈ [SQL_LIST_SCHEMAS; SQL_TABLES_OF_SCHEMA; SQL_ALL_TABLES; SQL_DESCRIBE_TABLE]
  ∧ Forall (λ p, ∃ key a, Scenario.args_describe !! key = Some a ∧ p = format_arg a)
      ["dbo"; "Customers"; "dbo"; "Customers"].
Proof.
  apply (catalogue_statements_are_constant World.env_sql (World.run_exit 0 "")
           World.connect_ok World.close_ok World.execute_table1
           World.int_of_str_fails "describe_table" Scenario.args_describe (Conn 1)).
  - apply list_elem_of_In. simpl. tauto.
  - apply list_elem_of_lookup. exists 1. reflexivity.
Defined.

Lemma list_tables_empty_schema_witness :
  call_tool World.env_sql (World.run_exit 0 "") World.connect_ok World.close_ok
    Scenario.execute_tables World.int_of_str_fails "list_tables"
    Scenario.args_empty_schema
  = call_tool World.env_sql (World.run_exit 0 "") World.connect_ok World.close_ok
      Scenario.execute_tables World.int_of_str_fails "list_tables"
      (delete "schema" Scenario.args_empty_schema).
Proof.
  apply (proj1 (list_tables_empty_schema World.env_sql (World.run_exit 0 "")
                  World.connect_ok World.close_ok Scenario.execute_tables
                  World.int_of_str_fails Scenario.args_empty_schema (AStr "")
                  eq_refl eq_refl)).
Defined.

Lemma read_resource_rejects_before_connecting_witness :
  read_resource World.env_sql (World.run_exit 0 "") World.connect_ok
    World.close_ok World.execute_table1 "mssql://Customers"
  = ([], Raised (ValueError "Invalid resource URI: mssql://Customers")).
Proof.
  apply (read_resource_rejects_before_connecting World.env_sql
           (World.run_exit 0 "") World.connect_ok World.close_ok
           World.execute_table1 "mssql://Customers").
  reflexivity.
Defined.

Lemma list_resources_outcomes_witness :
  (events (list_resources World.env_sql (World.run_exit 0 "") World.connect_ok
             World.close_ok Scenario.execute_tables Scenario.url_check)
   = [EvConnect (World.base_conn_str +:+ "UID=u;PWD=p;") None;
      EvExecute (Conn 1) SQL_LIST_RESOURCES [];
      EvClose (Conn 1)]
   ∧ ∃ resources,
       result (list_resources World.env_sql (World.run_exit 0 "") World.connect_ok
                 World.close_ok Scenario.execute_tables Scenario.url_check)
       = Returned resources
       ∧ r_uri <$> resources = ["mssql://dbo.Customers"; "mssql://sales.Orders"])
  ∧ result (list_resources World.env_sql (World.run_exit 0 "") World.connect_ok
              World.close_ok Scenario.execute_spaced Scenario.url_check)
    = Raised (ValueError "Input should be a valid URL, invalid domain character").
Proof.
  split.
  - destruct (list_resources_outcomes World.env_sql (World.run_exit 0 "")
                World.connect_ok World.close_ok Scenario.execute_tables
                Scenario.url_check (Conn 1) Scenario.tables
                ["TABLE_SCHEMA"; "TABLE_NAME"]
                eq_refl eq_refl eq_refl eq_refl) as (H1 & H2 & _).
    split; [exact H1|].
    exists [mkResource "mssql://dbo.Customers" "dbo.Customers"
              "Table dbo.Customers" "text/plain";
            mkResource "mssql://sales.Orders" "sales.Orders"
              "Table sales.Orders" "text/plain"].
    split; [|reflexivity]. apply H2.
    repeat constructor; by eexists (VStr _), (VStr _).
  - destruct (list_resources_outcomes World.env_sql (World.run_exit 0 "")
                World.connect_ok World.close_ok Scenario.execute_spaced
                Scenario.url_check (Conn 1) Scenario.spaced
                ["TABLE_SCHEMA"; "TABLE_NAME"]
                eq_refl eq_refl eq_refl eq_refl) as (_ & _ & H3 & _).
    apply (H3 [[VStr "dbo"; VStr "Customers"]] [VStr "dbo"; VStr "Order Details"] []).
    + reflexivity.
    + repeat constructor. by eexists.
    + reflexivity.
Defined.

(** ** The setup script *)

Lemma accepted_cases (auth : string) :
  Setup.accepted auth = true → auth = "sql" ∨ auth = "az_cli".
Proof.
  unfold Setup.accepted. intros H. apply orb_true_iff in H as [H|H];
    apply bool_decide_eq_true in H; auto.
Qed.

Lemma ask_auth_accepted lines auth rest :
  Setup.ask_auth lines = Some (auth, rest) → auth = "sql" ∨ auth = "az_cli".
Proof.
  induction lines as [|line lines IH]; simpl; [done|].
  destruct (Setup.accepted (PyStr.lower (PyStr.strip line))) eqn:Hacc; [|done].
  intros [= <- <-]. by apply accepted_cases.
Qed.

(** X19.  The loop that asks for the auth type takes the first answer
    that, stripped and lowered, is [sql] or [az_cli], and skips every
    answer before it; when no answer is acceptable it runs into the end
    of the input. *)
Theorem setup_auth_loop (lines : list string) :
  (∀ auth rest, Setup.ask_auth lines = Some (auth, rest) →
     (auth = "sql" ∨ auth = "az_cli")
     ∧ ∃ skipped line,
         lines = skipped ++ line :: rest
         ∧ auth = PyStr.lower (PyStr.strip line)
         ∧ Forall (λ l, Setup.accepted (PyStr.lower (PyStr.strip l)) = false)
             skipped)
  ∧ (Setup.ask_auth lines = None
     ↔ Forall (λ l, Setup.accepted (PyStr.lower (PyStr.strip l)) = false) lines).
Proof.
  induction lines as [|line lines [IH1 IH2]]; simpl.
  - split; [done|]. split; [constructor|done].
  - destruct (Setup.accepted (PyStr.lower (PyStr.strip line))) eqn:Hacc.
    + split.
      * intros auth rest [= <- <-]. split; [by apply accepted_cases|].
        exists [], line. by repeat split.
      * split; [done|]. intros H. apply Forall_cons in H as [H _]. congruence.
    + split.
      * intros auth rest H. destruct (IH1 _ _ H) as (Hauth & skipped & l & -> & -> & Hsk).
        split; [done|]. exists (line :: skipped), l.
        split; [done|]. split; [done|]. by constructor.
      * rewrite IH2. split; [by constructor|]. by intros [_ ?]%Forall_cons.
Qed.

Lemma setup_auth_loop_witness :
  ∃ skipped line,
    Scenario.typed = skipped ++ line :: [" srv "; "shop"; "u"; "p"; "extra"]
    ∧ "sql" = PyStr.lower (PyStr.strip line)
    ∧ Forall (λ l, Setup.accepted (PyStr.lower (PyStr.strip l)) = false) skipped.
Proof.
  apply (proj1 (setup_auth_loop Scenario.typed) "sql"
           [" srv "; "shop"; "u"; "p"; "extra"]).
  reflexivity.
Defined.

(** X20.  The settings the setup script writes are the settings the server
    reads.  In an environment that holds them, the connection string is
    always built; after the answer [sql] the server connects with the
    user and password that were typed, and after [az_cli], for which the
    script stores no user and no password, it runs the identity provider:
    acquisition never stops at a missing setting. *)
Theorem setup_env_is_complete lines env rest (environ : gmap string string)
    run_process pyodbc_connect :
  Setup.main_env lines = Some (env, rest) →
  env ⊆ environ →
  ∃ cs, result (_build_conn_str environ) = Returned cs
    ∧ ((env !! "AZURE_SQL_AUTH" = Some "sql"
        ∧ ∃ user password,
            env !! "AZURE_SQL_USER" = Some user
            ∧ env !! "AZURE_SQL_PASSWORD" = Some password
            ∧ events (acquire environ run_process pyodbc_connect)
              = [EvConnect (cs +:+ "UID=" +:+ user +:+ ";PWD=" +:+ password +:+ ";")
                   None])
       ∨ (env !! "AZURE_SQL_AUTH" = Some "az_cli"
          ∧ env !! "AZURE_SQL_USER" = None
          ∧ env !! "AZURE_SQL_PASSWORD" = None
          ∧ ∃ evs, events (acquire environ run_process pyodbc_connect)
                   = EvRun az_command :: evs)).
Proof.
  unfold Setup.main_env. intros Hmain Hsub.
  destruct (Setup.ask_auth lines) as [[auth l1]|] eqn:Hauth; [|done].
  pose proof (ask_auth_accepted _ _ _ Hauth) as Hcases.
  simpl in Hmain.
  destruct l1 as [|server l2]; [done|]. destruct l2 as [|database l3]; [done|].
  simpl in Hmain.
  assert (Hlook : ∀ k v, env !! k = Some v → environ !! k = Some v).
  { intros k v Hk. by eapply lookup_weaken. }
  destruct Hcases as [-> | ->].
  - simpl in Hmain. destruct l3 as [|user l4]; [done|].
    destruct l4 as [|password l5]; [done|]. simpl in Hmain.
    injection Hmain as <- <-.
    assert (Hs : environ !! "AZURE_SQL_SERVER" = Some (PyStr.strip server))
      by (apply Hlook; reflexivity).
    assert (Hd : environ !! "AZURE_SQL_DATABASE" = Some (PyStr.strip database))
      by (apply Hlook; reflexivity).
    assert (Ha : environ !! "AZURE_SQL_AUTH" = Some "sql")
      by (apply Hlook; reflexivity).
    assert (Hu : environ !! "AZURE_SQL_USER" = Some (PyStr.strip user))
      by (apply Hlook; reflexivity).
    assert (Hp : environ !! "AZURE_SQL_PASSWORD" = Some (PyStr.strip password))
      by (apply Hlook; reflexivity).
    pose proof (build_conn_str_value environ _ _ Hs Hd) as Hb.
    eexists. split; [by rewrite Hb|]. left. split; [reflexivity|].
    exists (PyStr.strip user), (PyStr.strip password).
    split; [reflexivity|]. split; [reflexivity|].
    rewrite (acquire_built environ _ _ _ ltac:(by rewrite Hb)).
    unfold environ_get. rewrite Ha. simpl.
    unfold open_connection, environ_getitem. simpl.
    rewrite Hu, Hp, !bind_ret_l. unfold connect. by rewrite events_bind.
  - simpl in Hmain. injection Hmain as <- <-.
    assert (Hs : environ !! "AZURE_SQL_SERVER" = Some (PyStr.strip server))
      by (apply Hlook; reflexivity).
    assert (Hd : environ !! "AZURE_SQL_DATABASE" = Some (PyStr.strip database))
      by (apply Hlook; reflexivity).
    assert (Ha : environ !! "AZURE_SQL_AUTH" = Some "az_cli")
      by (apply Hlook; reflexivity).
    pose proof (build_conn_str_value environ _ _ Hs Hd) as Hb.
    eexists. split; [by rewrite Hb|]. right. split; [reflexivity|].
    split; [reflexivity|]. split; [reflexivity|].
    rewrite (acquire_built environ _ _ _ ltac:(by rewrite Hb)).
    unfold environ_get. rewrite Ha. simpl.
    unfold open_connection. simpl.
    rewrite events_bind, get_az_token_spec. simpl. eauto.
Qed.

Lemma setup_env_is_complete_witness :
  ∃ env cs,
    Setup.main_env Scenario.typed = Some (env, ["extra"])
    ∧ result (_build_conn_str env) = Returned cs
    ∧ events (acquire env (World.run_exit 0 "") World.connect_ok)
      = [EvConnect (cs +:+ "UID=u;PWD=p;") None].
Proof.
  destruct (Setup.main_env Scenario.typed) as [[env rest]|] eqn:Hmain;
    [|discriminate].
  assert (rest = ["extra"]) as -> by (by vm_compute in Hmain; injection Hmain as _ <-).
  destruct (setup_env_is_complete Scenario.typed env ["extra"] env
              (World.run_exit 0 "") World.connect_ok Hmain (reflexivity env))
    as (cs & Hcs & [(_ & user & password & Hu & Hp & Hev)|(Haz & _)]).
  - exists env, cs. split; [done|]. split; [done|].
    vm_compute in Hmain. injection Hmain as <-.
    vm_compute in Hu. injection Hu as <-.
    vm_compute in Hp. injection Hp as <-. exact Hev.
  - vm_compute in Hmain. injection Hmain as <-. vm_compute in Haz. discriminate.
Defined.
